(** * NYC collision analysis: cleaning, filtering and aggregation

    A shallow embedding of the data pipeline of [analytics.py]:
    the cleaning pass of [read_data], the record filter [df_filter_by],
    the count-table builder [query_accidents_by_value_and_year] and the
    ratio aggregation [query_accidents_by_deaths_and_month].

    A pandas data frame is a list of rows in index order; selecting with a
    boolean mask is [filter].  Float columns are IEEE binary64 values
    (primitive floats), so [<], [==] and [/] are the machine operations. *)

From Stdlib Require Import ZArith List String Bool Lia Floats Uint63.
Import ListNotations.

Set Warnings "-inexact-float".

Local Open Scope string_scope.
Local Open Scope list_scope.
Local Open Scope Z_scope.

(* ================================================================== *)
(** * Python helpers                                                   *)
(* ================================================================== *)

(** [range(lo, hi)]. *)
Definition py_range (lo hi : Z) : list Z :=
  map (fun i => lo + Z.of_nat i) (seq 0 (Z.to_nat (hi - lo))).

(** Sequencing of calls that may raise: [None] is a raised exception. *)
Definition bind {A B : Type} (m : option A) (k : A -> option B) : option B :=
  match m with
  | Some a => k a
  | None => None
  end.

Notation "x <- m ;; k" := (bind m (fun x => k))
  (at level 61, m at next level, right associativity).

(** [for x in xs: acc = body(acc, x)] where the body may raise. *)
Fixpoint for_each {A S : Type} (xs : list A) (body : S -> A -> option S)
  (acc : S) : option S :=
  match xs with
  | [] => Some acc
  | x :: rest => acc' <- body acc x ;; for_each rest body acc'
  end.

(* ================================================================== *)
(** * Timestamps                                                       *)
(* ================================================================== *)

(** A [datetime64[ns]] value is a count of nanoseconds since
    1970-01-01T00:00; the [.dt] accessors read the proleptic Gregorian
    calendar fields off that count. *)
Module Datetime.

Definition NS_PER_HOUR : Z := 3600000000000.
Definition NS_PER_DAY : Z := 86400000000000.

Definition days (ns : Z) : Z := ns / NS_PER_DAY.

(** Day number within the 400-year era that starts on 0000-03-01. *)
Definition day_of_era (d : Z) : Z := (d + 719468) mod 146097.
Definition era (d : Z) : Z := (d + 719468) / 146097.

Definition year_of_era (doe : Z) : Z :=
  (doe - doe / 1460 + doe / 36524 - doe / 146096) / 365.

Definition day_of_year (doe : Z) : Z :=
  let yoe := year_of_era doe in
  doe - (365 * yoe + yoe / 4 - yoe / 100).

(** Month index counted from March (0) to February (11). *)
Definition month_from_march (doe : Z) : Z := (5 * day_of_year doe + 2) / 153.

Definition month_of_days (d : Z) : Z :=
  let mp := month_from_march (day_of_era d) in
  if mp <? 10 then mp + 3 else mp - 9.

Definition day_of_days (d : Z) : Z :=
  let doe := day_of_era d in
  day_of_year doe - (153 * month_from_march doe + 2) / 5 + 1.

Definition year_of_days (d : Z) : Z :=
  let y := year_of_era (day_of_era d) + era d * 400 in
  if month_of_days d <=? 2 then y + 1 else y.

Definition year (ns : Z) : Z := year_of_days (days ns).
Definition month (ns : Z) : Z := month_of_days (days ns).
Definition day (ns : Z) : Z := day_of_days (days ns).
Definition hour (ns : Z) : Z := (ns / NS_PER_HOUR) mod 24.

(** Monday is 0; 1970-01-01 was a Thursday. *)
Definition dayofweek (ns : Z) : Z := (days ns + 3) mod 7.

Definition DAY_NAMES : list string :=
  ["Monday"; "Tuesday"; "Wednesday"; "Thursday"; "Friday"; "Saturday";
   "Sunday"].

Definition day_name (ns : Z) : string :=
  nth (Z.to_nat (dayofweek ns)) DAY_NAMES "".

(** Nanoseconds of [y-m-d H:00], the inverse direction, used to write
    concrete rows. *)
Definition days_from_civil (y m d : Z) : Z :=
  let y' := if m <=? 2 then y - 1 else y in
  let e := y' / 400 in
  let yoe := y' - e * 400 in
  let mp := if m <=? 2 then m + 9 else m - 3 in
  let doy := (153 * mp + 2) / 5 + d - 1 in
  let doe := yoe * 365 + yoe / 4 - yoe / 100 + doy in
  e * 146097 + doe - 719468.

Definition at_hour (y m d h : Z) : Z :=
  days_from_civil y m d * NS_PER_DAY + h * NS_PER_HOUR.

End Datetime.

(* ================================================================== *)
(** * Data model                                                       *)
(* ================================================================== *)

(** One collision record, with the columns [read_data] keeps once
    [CRASH DATE] has been merged into [CRASH TIME].  A missing value is
    [None] in the timestamp, borough and counter columns ([NaT] / [NaN])
    and a NaN in the two float columns. *)
Record Row : Type := mkRow {
  CRASH_TIME : option Z;
  BOROUGH : option string;
  LATITUDE : float;
  LONGITUDE : float;
  NUMBER_OF_PERSONS_INJURED : option Z;
  NUMBER_OF_PERSONS_KILLED : option Z;
  NUMBER_OF_PEDESTRIANS_INJURED : option Z;
  NUMBER_OF_PEDESTRIANS_KILLED : option Z;
  NUMBER_OF_CYCLIST_INJURED : option Z;
  NUMBER_OF_CYCLIST_KILLED : option Z;
  NUMBER_OF_MOTORIST_INJURED : option Z;
  NUMBER_OF_MOTORIST_KILLED : option Z
}.

Definition DataFrame : Type := list Row.

(** [df.shape[0]]. *)
Definition shape0 (df : DataFrame) : Z := Z.of_nat (List.length df).

(** A scalar handed to a comparison: a [str] or an [int]. *)
Inductive Value : Type :=
| Str (s : string)
| Int (n : Z).

(** A dictionary key or label: a scalar or a pair of floats. *)
Inductive Key : Type :=
| KVal (v : Value)
| KPair (a b : float).

Definition Value_eqb (v w : Value) : bool :=
  match v, w with
  | Str s, Str t => String.eqb s t
  | Int n, Int m => Z.eqb n m
  | _, _ => false
  end.

Definition Key_eqb (k l : Key) : bool :=
  match k, l with
  | KVal v, KVal w => Value_eqb v w
  | KPair a b, KPair c d => PrimFloat.eqb a c && PrimFloat.eqb b d
  | _, _ => false
  end.

(** Element-wise [column == value]: a missing entry equals nothing, and a
    string never equals a number. *)
Definition str_eq_value (x : option string) (v : Value) : bool :=
  match x, v with
  | Some s, Str t => String.eqb s t
  | _, _ => false
  end.

Definition int_eq_value (x : option Z) (v : Value) : bool :=
  match x, v with
  | Some n, Int m => Z.eqb n m
  | _, _ => false
  end.

(** The [.dt] accessors of the [CRASH TIME] column. *)
Definition dt_year (r : Row) : option Z := option_map Datetime.year (CRASH_TIME r).
Definition dt_month (r : Row) : option Z := option_map Datetime.month (CRASH_TIME r).
Definition dt_hour (r : Row) : option Z := option_map Datetime.hour (CRASH_TIME r).
Definition dt_day_name (r : Row) : option string :=
  option_map Datetime.day_name (CRASH_TIME r).

(* ================================================================== *)
(** * Globals                                                          *)
(* ================================================================== *)

Definition MIN_LATITUDE : float := 40.49%float.
Definition MAX_LATITUDE : float := 40.92%float.
Definition MIN_LONGITUDE : float := (-74.25)%float.
Definition MAX_LONGITUDE : float := (-73.7)%float.

Definition YEARS : list Z := py_range 2013 2021.

(** A dictionary literal, as its items in insertion order. *)
Definition BOROUGH_COORDS : list (Value * Key) :=
  [ (Str "STATEN ISLAND", KPair 40.58 74.15);
    (Str "BRONX", KPair 40.84 73.86);
    (Str "QUEENS", KPair 40.73 73.79);
    (Str "MANHATTAN", KPair 40.78 73.97);
    (Str "BROOKLYN", KPair 40.68 73.94) ].

Definition MONTHS : list (Value * Key) :=
  [ (Int 1, KVal (Str "January"));
    (Int 2, KVal (Str "February"));
    (Int 3, KVal (Str "March"));
    (Int 4, KVal (Str "April"));
    (Int 5, KVal (Str "May"));
    (Int 6, KVal (Str "June"));
    (Int 7, KVal (Str "July"));
    (Int 8, KVal (Str "August"));
    (Int 9, KVal (Str "September"));
    (Int 10, KVal (Str "October"));
    (Int 11, KVal (Str "November"));
    (Int 12, KVal (Str "December")) ].

Definition DAYS : list Value :=
  [ Str "Sunday"; Str "Monday"; Str "Tuesday"; Str "Wednesday";
    Str "Thursday"; Str "Friday"; Str "Saturday" ].

Definition HOURS : list Z := py_range 0 24.

(* ================================================================== *)
(** * Record filter                                                    *)
(* ================================================================== *)

(** [df_filter_by(df, column, value)].  The chain of [if]/[elif] has no
    [else]: for any other column the function falls off its end and
    returns Python's [None], here [None] as well. *)
Definition df_filter_by (df : DataFrame) (column : string) (value : Value)
  : option DataFrame :=
  if (column =? "borough")%string then
    Some (filter (fun r => str_eq_value (BOROUGH r) value) df)
  else if (column =? "year")%string then
    Some (filter (fun r => int_eq_value (dt_year r) value) df)
  else if (column =? "month")%string then
    Some (filter (fun r => int_eq_value (dt_month r) value) df)
  else if (column =? "day")%string then
    Some (filter (fun r => str_eq_value (dt_day_name r) value) df)
  else if (column =? "hour")%string then
    Some (filter (fun r => int_eq_value (dt_hour r) value) df)
  else None.

(** [df_between_coords(df, coord1, coord2)]. *)
Definition df_between_coords (df : DataFrame) (coord1 coord2 : float * float)
  : DataFrame :=
  let '(min_lat, min_long) := coord1 in
  let '(max_lat, max_long) := coord2 in
  let within_lat r :=
    PrimFloat.ltb min_lat (LATITUDE r) && PrimFloat.ltb (LATITUDE r) max_lat in
  let within_long r :=
    PrimFloat.ltb min_long (LONGITUDE r) && PrimFloat.ltb (LONGITUDE r) max_long in
  filter (fun r => within_lat r && within_long r) df.

(** [df_between_years(df, y1, y2)]; a [NaT] row compares false. *)
Definition df_between_years (df : DataFrame) (y1 y2 : Z) : DataFrame :=
  filter (fun r => match dt_year r with
                   | Some y => (y1 <=? y) && (y <=? y2)
                   | None => false
                   end) df.

(* ================================================================== *)
(** * Cleaning                                                         *)
(* ================================================================== *)

Definition set_lat_long (r : Row) (lat lon : float) : Row :=
  mkRow (CRASH_TIME r) (BOROUGH r) lat lon
        (NUMBER_OF_PERSONS_INJURED r) (NUMBER_OF_PERSONS_KILLED r)
        (NUMBER_OF_PEDESTRIANS_INJURED r) (NUMBER_OF_PEDESTRIANS_KILLED r)
        (NUMBER_OF_CYCLIST_INJURED r) (NUMBER_OF_CYCLIST_KILLED r)
        (NUMBER_OF_MOTORIST_INJURED r) (NUMBER_OF_MOTORIST_KILLED r).

Definition set_borough_longitude (r : Row) (b : option string) (lon : float)
  : Row :=
  mkRow (CRASH_TIME r) b (LATITUDE r) lon
        (NUMBER_OF_PERSONS_INJURED r) (NUMBER_OF_PERSONS_KILLED r)
        (NUMBER_OF_PEDESTRIANS_INJURED r) (NUMBER_OF_PEDESTRIANS_KILLED r)
        (NUMBER_OF_CYCLIST_INJURED r) (NUMBER_OF_CYCLIST_KILLED r)
        (NUMBER_OF_MOTORIST_INJURED r) (NUMBER_OF_MOTORIST_KILLED r).

(** [fillna] with 0 on one float entry. *)
Definition fillna0 (x : float) : float :=
  if PrimFloat.is_nan x then 0%float else x.

(** [Series.notnull()] on one entry. *)
Definition notnull {A : Type} (x : option A) : bool :=
  match x with
  | Some _ => true
  | None => false
  end.

(** [b | x] for a boolean entry and a float entry: pandas casts the float
    operand to bool (every value but zero is True) and takes the
    disjunction. *)
Definition bool_or_float (b : bool) (x : float) : bool :=
  b || negb (PrimFloat.eqb x 0).

(** [b != 0] for a boolean entry: [False] is the only boolean equal to 0. *)
Definition bool_ne_0 (b : bool) : bool := negb (Bool.eqb b false).

(** [collision_df.fillna({'LATITUDE': 0, 'LONGITUDE': 0})]. *)
Definition fill_missing_coordinates (df : DataFrame) : DataFrame :=
  map (fun r => set_lat_long r (fillna0 (LATITUDE r)) (fillna0 (LONGITUDE r))) df.

(** [cleaned_df[cleaned_df['BOROUGH'].notnull() | cleaned_df['LONGITUDE'] != 0]].
    Python's [|] binds tighter than [!=], so the mask is
    [(notnull | LONGITUDE) != 0]. *)
Definition borough_or_longitude_mask (r : Row) : bool :=
  bool_ne_0 (bool_or_float (notnull (BOROUGH r)) (LONGITUDE r)).

Definition keep_labelled_or_located (df : DataFrame) : DataFrame :=
  filter borough_or_longitude_mask df.

(** The Queensboro Bridge edge case:
    [cleaned_df.loc[cleaned_df['LONGITUDE'] == -201.23706,
                    ['BOROUGH', 'LONGITUDE']] = ['MANHATTAN', -73.95337]]. *)
Definition QUEENSBORO_WRONG_LONGITUDE : float := (-201.23706)%float.
Definition QUEENSBORO_LONGITUDE : float := (-73.95337)%float.

Definition fix_queensboro_row (r : Row) : Row :=
  if PrimFloat.eqb (LONGITUDE r) QUEENSBORO_WRONG_LONGITUDE
  then set_borough_longitude r (Some "MANHATTAN") QUEENSBORO_LONGITUDE
  else r.

Definition fix_queensboro (df : DataFrame) : DataFrame := map fix_queensboro_row df.

(** The coordinate filter of [read_data]. *)
Definition within_lat (r : Row) : bool :=
  PrimFloat.ltb MIN_LATITUDE (LATITUDE r) && PrimFloat.ltb (LATITUDE r) MAX_LATITUDE.

Definition within_long (r : Row) : bool :=
  PrimFloat.ltb MIN_LONGITUDE (LONGITUDE r) && PrimFloat.ltb (LONGITUDE r) MAX_LONGITUDE.

(** [no_lat_long = (LATITUDE == 0) & (LATITUDE == 0)]: both operands read
    the latitude column. *)
Definition no_lat_long (r : Row) : bool :=
  PrimFloat.eqb (LATITUDE r) 0 && PrimFloat.eqb (LATITUDE r) 0.

Definition keep_within_nyc (df : DataFrame) : DataFrame :=
  filter (fun r => (within_lat r && within_long r) || no_lat_long r) df.

(** [read_data()].  The argument is the frame read from the CSV file with
    the kept columns and the parsed [CRASH TIME]; the result is
    [(cleaned_df, year_df_dict)].  Writing the cache files does not change
    the result. *)
Definition read_data (collision_df : DataFrame)
  : DataFrame * list (Z * option DataFrame) :=
  let collision_df := fill_missing_coordinates collision_df in
  let cleaned_df := collision_df in
  let cleaned_df := keep_labelled_or_located cleaned_df in
  let cleaned_df := fix_queensboro cleaned_df in
  let cleaned_df := keep_within_nyc cleaned_df in
  let year_df_dict :=
    map (fun year => (year, df_filter_by cleaned_df "year" (Int year))) YEARS in
  (cleaned_df, year_df_dict).

(* ================================================================== *)
(** * Aggregation                                                      *)
(* ================================================================== *)

(** [defaultdict(list)], as its items in insertion order. *)
Definition Counts (A : Type) : Type := list (Key * list A).

(** [counts[k].append(x)]: a new key is inserted last with the list [[x]]. *)
Fixpoint append_to {A : Type} (counts : Counts A) (k : Key) (x : A) : Counts A :=
  match counts with
  | [] => [(k, [x])]
  | (k', l) :: rest =>
      if Key_eqb k' k then (k', l ++ [x]) :: rest
      else (k', l) :: append_to rest k x
  end.

(** The [column_dict] argument: a dictionary from values to labels, or any
    other iterable of values. *)
Inductive ColumnDict : Type :=
| AsDict (items : list (Value * Key))
| AsIterable (values : list Value).

(** The values iterated, each with the key it is counted under:
    [column_dict[column_value]] for a dictionary, [column_value] itself
    otherwise. *)
Definition column_items (column_dict : ColumnDict) : list (Value * Key) :=
  match column_dict with
  | AsDict items => items
  | AsIterable values => map (fun v => (v, KVal v)) values
  end.

(** [query_accidents_by_value_and_year(cleaned_df, column_name, column_dict)].
    Taking [.shape] of the [None] that [df_filter_by] returns for an
    unknown column raises. *)
Definition query_accidents_by_value_and_year (cleaned_df : DataFrame)
  (column_name : string) (column_dict : ColumnDict) : option (Counts Z) :=
  for_each YEARS
    (fun counts year =>
       year_df <- df_filter_by cleaned_df "year" (Int year) ;;
       for_each (column_items column_dict)
         (fun counts '(column_value, label) =>
            column_value_df <- df_filter_by year_df column_name column_value ;;
            Some (append_to counts label (shape0 column_value_df)))
         counts)
    [].

(** [Series.sum()] of a counter column: missing entries are skipped. *)
Definition column_sum (xs : list (option Z)) : Z :=
  fold_left (fun acc x => match x with Some n => acc + n | None => acc end) xs 0.

(** A count as a binary64 value (counts are below 2^63). *)
Definition to_float (n : Z) : float := PrimFloat.of_uint63 (Uint63.of_Z n).

(** [deaths / month_df.shape[0]] with [deaths] a NumPy scalar: IEEE
    division, which does not raise on a zero divisor. *)
Definition true_divide (a b : Z) : float := PrimFloat.div (to_float a) (to_float b).

(** [query_accidents_by_deaths_and_month(cleaned_df)]. *)
Definition query_accidents_by_deaths_and_month (cleaned_df : DataFrame)
  : option (list Z * Counts Z * Counts float) :=
  tables <- for_each YEARS
    (fun tables year =>
       year_df <- df_filter_by cleaned_df "year" (Int year) ;;
       for_each MONTHS
         (fun '(death_counts, death_ratio) '(month, name) =>
            month_df <- df_filter_by year_df "month" month ;;
            let deaths := column_sum (map NUMBER_OF_PERSONS_KILLED month_df) in
            Some (append_to death_counts name deaths,
                  append_to death_ratio name
                    (true_divide deaths (shape0 month_df))))
         tables)
    ([], []) ;;
  Some (YEARS, fst tables, snd tables).

(* ================================================================== *)
(** * Nested aggregation                                               *)
(* ================================================================== *)

(** [defaultdict(lambda: defaultdict(list))], outer items in insertion
    order. *)
Definition NestedCounts (A : Type) : Type := list (Key * Counts A).

(** [counts[k1][k2].append(x)]: a new outer key is inserted last with a
    fresh inner table. *)
Fixpoint append_nested {A : Type} (counts : NestedCounts A) (k1 k2 : Key)
  (x : A) : NestedCounts A :=
  match counts with
  | [] => [(k1, append_to [] k2 x)]
  | (k', inner) :: rest =>
      if Key_eqb k' k1 then (k', append_to inner k2 x) :: rest
      else (k', inner) :: append_nested rest k1 k2 x
  end.

(** [query_accidents_by_weekday_and_time_and_year(cleaned_df)]. *)
Definition query_accidents_by_weekday_and_time_and_year (cleaned_df : DataFrame)
  : option (NestedCounts Z) :=
  for_each YEARS
    (fun counts year =>
       year_df <- df_filter_by cleaned_df "year" (Int year) ;;
       for_each HOURS
         (fun counts hour =>
            hour_df <- df_filter_by year_df "hour" (Int hour) ;;
            for_each DAYS
              (fun counts day =>
                 day_df <- df_filter_by hour_df "day" day ;;
                 Some (append_nested counts (KVal (Int year)) (KVal day)
                         (shape0 day_df)))
              counts)
         counts)
    [].

(** [query_accidents_by_borough_and_month_and_year(cleaned_df)]. *)
Definition query_accidents_by_borough_and_month_and_year (cleaned_df : DataFrame)
  : option (NestedCounts Z) :=
  for_each YEARS
    (fun counts year =>
       year_df <- df_filter_by cleaned_df "year" (Int year) ;;
       for_each (map fst BOROUGH_COORDS)
         (fun counts borough =>
            borough_df <- df_filter_by year_df "borough" borough ;;
            for_each (map fst MONTHS)
              (fun counts month =>
                 month_df <- df_filter_by borough_df "month" month ;;
                 Some (append_nested counts (KVal (Int year)) (KVal borough)
                         (shape0 month_df)))
              counts)
         counts)
    [].

(** [query_accidents_by_borough_and_day_and_year(cleaned_df)]. *)
Definition query_accidents_by_borough_and_day_and_year (cleaned_df : DataFrame)
  : option (NestedCounts Z) :=
  for_each YEARS
    (fun counts year =>
       year_df <- df_filter_by cleaned_df "year" (Int year) ;;
       for_each (map fst BOROUGH_COORDS)
         (fun counts borough =>
            borough_df <- df_filter_by year_df "borough" borough ;;
            for_each DAYS
              (fun counts day =>
                 day_df <- df_filter_by borough_df "day" day ;;
                 Some (append_nested counts (KVal (Int year)) (KVal borough)
                         (shape0 day_df)))
              counts)
         counts)
    [].

(** [query_accidents_by_borough_and_hour_and_year(cleaned_df)]. *)
Definition query_accidents_by_borough_and_hour_and_year (cleaned_df : DataFrame)
  : option (NestedCounts Z) :=
  for_each YEARS
    (fun counts year =>
       year_df <- df_filter_by cleaned_df "year" (Int year) ;;
       for_each (map fst BOROUGH_COORDS)
         (fun counts borough =>
            borough_df <- df_filter_by year_df "borough" borough ;;
            for_each HOURS
              (fun counts hour =>
                 hour_df <- df_filter_by borough_df "hour" (Int hour) ;;
                 Some (append_nested counts (KVal (Int year)) (KVal borough)
                         (shape0 hour_df)))
              counts)
         counts)
    [].

(* ================================================================== *)
(** * Sample records                                                   *)
(* ================================================================== *)

Module Sample.

(** A record with no casualties. *)
Definition row (t : option Z) (b : option string) (lat lon : float) : Row :=
  mkRow t b lat lon (Some 0) (Some 0) (Some 0) (Some 0) (Some 0) (Some 0)
        (Some 0) (Some 0).

Definition manhattan_2013 : Row :=
  row (Some (Datetime.at_hour 2013 3 15 8)) (Some "MANHATTAN")
      40.75%float (-73.98)%float.

Definition queens_2013 : Row :=
  row (Some (Datetime.at_hour 2013 7 4 12)) (Some "QUEENS")
      40.73%float (-73.8)%float.

Definition manhattan_2014 : Row :=
  row (Some (Datetime.at_hour 2014 1 1 0)) (Some "MANHATTAN")
      40.75%float (-73.98)%float.

(** The three-row frame of the borough-and-year scenario. *)
Definition three_rows : DataFrame :=
  [manhattan_2013; queens_2013; manhattan_2014].

(** A located record of 2013 that carries no borough label. *)
Definition unlabelled_2013 : Row :=
  row (Some (Datetime.at_hour 2013 5 20 17)) None 40.7%float (-73.9)%float.

(** A labelled record whose latitude is missing and whose longitude is
    present. *)
Definition queens_without_latitude : Row :=
  row (Some (Datetime.at_hour 2015 6 1 9)) (Some "QUEENS") nan (-73.9)%float.

(** The Queensboro Bridge record as it is in the file. *)
Definition queensboro_raw : Row :=
  row (Some (Datetime.at_hour 2016 9 10 14)) None 40.75%float (-201.23706)%float.

(** A record with neither label nor coordinates. *)
Definition unknown_place : Row :=
  row (Some (Datetime.at_hour 2017 2 2 2)) None nan nan.

End Sample.

(* ================================================================== *)
(** * Specification functions                                          *)
(* ================================================================== *)

(** The row predicate behind each recognised column of [df_filter_by]. *)
Definition column_mask (column : string) : option (Value -> Row -> bool) :=
  if (column =? "borough")%string then
    Some (fun value r => str_eq_value (BOROUGH r) value)
  else if (column =? "year")%string then
    Some (fun value r => int_eq_value (dt_year r) value)
  else if (column =? "month")%string then
    Some (fun value r => int_eq_value (dt_month r) value)
  else if (column =? "day")%string then
    Some (fun value r => str_eq_value (dt_day_name r) value)
  else if (column =? "hour")%string then
    Some (fun value r => int_eq_value (dt_hour r) value)
  else None.

(** The year predicate of [df_filter_by(df, 'year', year)]. *)
Definition in_year (year : Z) (r : Row) : bool :=
  int_eq_value (dt_year r) (Int year).

(** Number of records of [df] in [year] that [mask] selects. *)
Definition bucket_count (df : DataFrame) (mask : Row -> bool) (year : Z) : Z :=
  shape0 (filter mask (filter (in_year year) df)).

(** No key of the list equals a later one, and each equals itself. *)
Fixpoint distinct_keys (ks : list Key) : bool :=
  match ks with
  | [] => true
  | k :: rest =>
      Key_eqb k k && forallb (fun k' => negb (Key_eqb k k')) rest
      && distinct_keys rest
  end.

(** One pass over the items, appending [f item] under each item's key. *)
Definition append_all {A : Type} (items : list (Value * Key))
  (f : Value * Key -> A) (counts : Counts A) : Counts A :=
  fold_left (fun c it => append_to c (snd it) (f it)) items counts.

(** The table with one entry per item, in item order, whose sequence holds
    [f year item] for the years in order. *)
Definition table_of {A : Type} (items : list (Value * Key))
  (f : Z -> Value * Key -> A) (years : list Z) : Counts A :=
  map (fun it => (snd it, map (fun year => f year it) years)) items.

(** The count table of a recognised column over [YEARS]. *)
Definition count_table (df : DataFrame) (mask : Value -> Row -> bool)
  (items : list (Value * Key)) : Counts Z :=
  table_of items (fun year it => bucket_count df (mask (fst it)) year) YEARS.

(** Sum over all categories of the entries at position [i]. *)
Definition column_total (table : Counts Z) (i : nat) : Z :=
  fold_right Z.add 0 (map (fun entry => nth i (snd entry) 0) table).

(** The totals at the eight year positions. *)
Definition column_totals (table : Counts Z) : list Z :=
  map (column_total table) (seq 0 8).

(** The record carries one of the five declared borough names. *)
Definition has_declared_borough (r : Row) : bool :=
  existsb (fun it => str_eq_value (BOROUGH r) (fst it)) BOROUGH_COORDS.

(** Number of values of [vs] that a record matches. *)
Definition matches (vs : list Value) (mask : Value -> Row -> bool) (r : Row) : Z :=
  Z.of_nat (List.length (filter (fun v => mask v r) vs)).

(** The row predicates of the four category columns. *)
Definition borough_is (value : Value) (r : Row) : bool :=
  str_eq_value (BOROUGH r) value.
Definition month_is (value : Value) (r : Row) : bool :=
  int_eq_value (dt_month r) value.
Definition day_is (value : Value) (r : Row) : bool :=
  str_eq_value (dt_day_name r) value.
Definition hour_is (value : Value) (r : Row) : bool :=
  int_eq_value (dt_hour r) value.

(** Sum of the per-record values of [g]. *)
Definition total {A : Type} (g : A -> Z) (l : list A) : Z :=
  fold_right Z.add 0 (map g l).

(** Sum of [NUMBER OF PERSONS KILLED] over the records of a month of a
    year. *)
Definition deaths_in (df : DataFrame) (year : Z) (month : Value) : Z :=
  column_sum (map NUMBER_OF_PERSONS_KILLED
                (filter (month_is month) (filter (in_year year) df))).

(** The categories of a nested table: each value with the key it is stored
    under. *)
Definition keyed (values : list Value) : list (Value * Key) :=
  map (fun v => (v, KVal v)) values.

(** The nested table with one outer entry per year of [YEARS], one inner
    entry per category and one count per position, all in order. *)
Definition nested_table (cats positions : list Value)
  (count : Z -> Value -> Value -> Z) : NestedCounts Z :=
  map (fun year =>
         (KVal (Int year),
          map (fun c => (KVal c, map (fun p => count year c p) positions)) cats))
      YEARS.

(** Sum of all the counts stored under one outer entry. *)
Definition inner_total (inner : Counts Z) : Z :=
  total (fun entry => fold_right Z.add 0 (snd entry)) inner.

(** Number of list entries a table holds over all its keys. *)
Definition entries {A : Type} (counts : Counts A) : nat :=
  fold_right Nat.add 0%nat (map (fun entry => List.length (snd entry)) counts).

(* ================================================================== *)
(** * Heat maps by borough                                             *)
(* ================================================================== *)

(** The dictionary [BOROUGH_BOUNDS]: for each borough the corner of its
    least latitude and longitude and the corner of its greatest. *)
Definition BOROUGH_BOUNDS : list (Value * ((float * float) * (float * float))) :=
  [ (Str "STATEN ISLAND",
     ((40.500084, -74.249940), (40.648273, -74.060880))%float);
    (Str "BRONX",
     ((40.785124, -73.934663), (40.914714, -73.765061))%float);
    (Str "QUEENS",
     ((40.541444, -73.961150), (40.800279, -73.699538))%float);
    (Str "MANHATTAN",
     ((40.701239, -74.019387), (40.877565, -73.910405))%float);
    (Str "BROOKLYN",
     ((40.571755, -74.041960), (40.740757, -73.861229))%float) ].

(** [d[k]] for a dictionary given by its items; [None] is the [KeyError]. *)
Fixpoint dict_get {K V : Type} (eqb : K -> K -> bool) (d : list (K * V))
  (k : K) : option V :=
  match d with
  | [] => None
  | (k', v) :: rest => if eqb k' k then Some v else dict_get eqb rest k
  end.

(** One call of [plot_basemap_heat_density]: the frame it is given, the
    borough and the year of its title. *)
Definition HeatMap : Type := (DataFrame * Value * Z)%type.

(** The frame of one heat map, as both branches of [visualize_seven] build
    it: the year's frame, filtered by borough and then by the bounds of the
    borough. *)
Definition heat_map_of (year_df_dict : list (Z * option DataFrame))
  (borough : Value) (year : Z) : option HeatMap :=
  entry <- dict_get Z.eqb year_df_dict year ;;
  year_df <- entry ;;
  borough_df <- df_filter_by year_df "borough" borough ;;
  bounds <- dict_get Value_eqb BOROUGH_BOUNDS borough ;;
  let '(c1, c2) := bounds in
  Some (df_between_coords borough_df c1 c2, borough, year).

(** [visualize_seven(year_df_dict, boroughs, selected_year)]: the heat maps
    it asks for, in call order, for as long as drawing them returns.  The
    [assert] on [selected_year] comes first. *)
Definition visualize_seven (year_df_dict : list (Z * option DataFrame))
  (boroughs : list Value) (selected_year : option Z) : option (list HeatMap) :=
  _ <- match selected_year with
       | Some year => if (2012 <? year) && (year <? 2021) then Some tt else None
       | None => Some tt
       end ;;
  for_each boroughs
    (fun plots borough =>
       match selected_year with
       | None =>
           for_each (map fst year_df_dict)
             (fun plots year =>
                plot <- heat_map_of year_df_dict borough year ;;
                Some (plots ++ [plot]))
             plots
       | Some year =>
           plot <- heat_map_of year_df_dict borough year ;;
           Some (plots ++ [plot])
       end)
    [].

(* ================================================================== *)
(** * Causation and involved parties                                   *)
(* ================================================================== *)

(** One record of the preprocessed file read by [visualize_three] and
    [visualize_eight]: an indicator column per crash year, the four
    causation indicators and the pedestrian indicator. *)
Record FactorRow : Type := mkFactorRow {
  CRASH_YEAR : Z -> option Z;
  Drug_Related_Factor : option Z;
  Personal_Factor : option Z;
  Environmental_Cause_Factor : option Z;
  Failure_To_Obey_Traffic_Factor : option Z;
  INVOLVED_TYPE_PEDESTRIAN : option Z
}.

(** Element-wise [column == n]; a missing entry equals nothing. *)
Definition cell_is (n : Z) (x : option Z) : bool :=
  match x with
  | Some m => m =? n
  | None => false
  end.

(** The causation columns, in the order [visualize_three] lists them. *)
Definition FACTOR_COLUMNS : list (string * (FactorRow -> option Z)) :=
  [ ("Drug Related Factor", Drug_Related_Factor);
    ("Personal Factor", Personal_Factor);
    ("Environmental Cause Factor", Environmental_Cause_Factor);
    ("Failure To Obey Traffic Factor", Failure_To_Obey_Traffic_Factor) ].

(** [cleaned_df[cleaned_df['CRASH YEAR <year>'] == 1]]. *)
Definition crashes_of_year (cleaned_df : list FactorRow) (year : Z)
  : list FactorRow :=
  filter (fun r => cell_is 1 (CRASH_YEAR r year)) cleaned_df.

(** [l[-1]]; [None] is the [IndexError] of an empty list. *)
Definition last_of {A : Type} (l : list A) : option A :=
  match rev l with
  | x :: _ => Some x
  | [] => None
  end.

(** [a / b] on Python integers: [ZeroDivisionError] when [b] is 0, else
    the binary64 quotient (for counts below 2^53). *)
Definition int_true_divide (a b : Z) : option float :=
  if b =? 0 then None else Some (PrimFloat.div (to_float a) (to_float b)).

(** The loop over the involved parties, the same in [visualize_three] and
    [visualize_eight]. *)
Definition involved_parties (cleaned_df : list FactorRow) : Counts Z :=
  fold_left
    (fun counts year =>
       let filtered_data := crashes_of_year cleaned_df year in
       let counts :=
         append_to counts (KVal (Str "INVOLVED TYPE PEDESTRIAN"))
           (Z.of_nat (List.length
              (filter (fun r => cell_is 1 (INVOLVED_TYPE_PEDESTRIAN r))
                      filtered_data))) in
       append_to counts (KVal (Str "VEHICLE ONLY"))
         (Z.of_nat (List.length
            (filter (fun r => cell_is 0 (INVOLVED_TYPE_PEDESTRIAN r))
                    filtered_data))))
    YEARS [].

(** The body of the loop over the years in [visualize_three]: the counts
    of the four causation columns are appended to [counts_total], then
    every key of [counts_total] gets its last count divided by the year's
    total appended to [counts_percentage]. *)
Definition causation_step (cleaned_df : list FactorRow)
  (tables : Counts Z * Counts float) (year : Z)
  : option (Counts Z * Counts float) :=
  let '(counts_total, counts_percentage) := tables in
  let filtered_data := crashes_of_year cleaned_df year in
  let '(counts_total, total_year_count) :=
    fold_left
      (fun '(counts_total, total_year_count) '(column, cell) =>
         let n := Z.of_nat (List.length
                    (filter (fun r => cell_is 1 (cell r)) filtered_data)) in
         (append_to counts_total (KVal (Str column)) n, total_year_count + n))
      FACTOR_COLUMNS (counts_total, 0) in
  counts_percentage <- for_each counts_total
    (fun counts_percentage '(column, values) =>
       last <- last_of values ;;
       ratio <- int_true_divide last total_year_count ;;
       Some (append_to counts_percentage column ratio))
    counts_percentage ;;
  Some (counts_total, counts_percentage).

(** [visualize_three()]: the tables it hands to its three charts, totals,
    percentages and involved parties, from the frame read from the file.
    The loop over the causation columns runs before the first chart. *)
Definition visualize_three (cleaned_df : list FactorRow)
  : option (Counts Z * Counts float * Counts Z) :=
  tables <- for_each YEARS (causation_step cleaned_df) ([], []) ;;
  Some (fst tables, snd tables, involved_parties cleaned_df).

(** [visualize_eight()]: the table it hands to its chart. *)
Definition visualize_eight (cleaned_df : list FactorRow) : Counts Z :=
  involved_parties cleaned_df.

(** Number of records of a year with one causation indicator set. *)
Definition factor_count (cleaned_df : list FactorRow)
  (column : string * (FactorRow -> option Z)) (year : Z) : Z :=
  Z.of_nat (List.length
    (filter (fun r => cell_is 1 (snd column r))
            (crashes_of_year cleaned_df year))).

(** Number of causation indicators set among the records of a year. *)
Definition factor_total (cleaned_df : list FactorRow) (year : Z) : Z :=
  total (fun column => factor_count cleaned_df column year) FACTOR_COLUMNS.

(** The table with one entry per causation column, in order, holding
    [f column year] for the years in order. *)
Definition factor_table {A : Type}
  (f : string * (FactorRow -> option Z) -> Z -> A) (years : list Z)
  : Counts A :=
  map (fun column => (KVal (Str (fst column)), map (f column) years))
      FACTOR_COLUMNS.

(** The share of one causation column in a year. *)
Definition factor_share (cleaned_df : list FactorRow)
  (column : string * (FactorRow -> option Z)) (year : Z) : float :=
  PrimFloat.div (to_float (factor_count cleaned_df column year))
                (to_float (factor_total cleaned_df year)).

(** The two tables of [visualize_three] once the years of [prefix] are
    done. *)
Definition causation_tables (cleaned_df : list FactorRow) (prefix : list Z)
  : Counts Z * Counts float :=
  match prefix with
  | [] => ([], [])
  | _ :: _ => (factor_table (factor_count cleaned_df) prefix,
               factor_table (factor_share cleaned_df) prefix)
  end.

(** Number of records of a year whose pedestrian indicator is [n]. *)
Definition party_count (cleaned_df : list FactorRow) (n : Z) (year : Z) : Z :=
  Z.of_nat (List.length
    (filter (fun r => cell_is n (INVOLVED_TYPE_PEDESTRIAN r))
            (crashes_of_year cleaned_df year))).

(* ================================================================== *)
(** * The record filter                                                *)
(* ================================================================== *)

Lemma df_filter_by_mask (df : DataFrame) (column : string) (value : Value) :
  df_filter_by df column value =
  option_map (fun mask => filter (mask value) df) (column_mask column).
Proof.
  unfold df_filter_by, column_mask.
  repeat (match goal with |- context [String.eqb ?a ?b] => destruct (String.eqb a b) end;
          [reflexivity|]).
  reflexivity.
Qed.

Lemma df_filter_by_year (df : DataFrame) (y : Value) :
  df_filter_by df "year" y = Some (filter (fun r => int_eq_value (dt_year r) y) df).
Proof. reflexivity. Qed.

Lemma df_filter_by_borough (df : DataFrame) (b : Value) :
  df_filter_by df "borough" b = Some (filter (fun r => str_eq_value (BOROUGH r) b) df).
Proof. reflexivity. Qed.

Lemma filter_filter_comm {A : Type} (p q : A -> bool) (l : list A) :
  filter q (filter p l) = filter p (filter q l).
Proof.
  induction l as [|a l IH]; simpl; [reflexivity|].
  destruct (p a) eqn:Hp, (q a) eqn:Hq; simpl; rewrite ?Hp, ?Hq, IH; reflexivity.
Qed.

Lemma filter_filter_andb {A : Type} (p q : A -> bool) (l : list A) :
  filter q (filter p l) = filter (fun a => p a && q a) l.
Proof.
  induction l as [|a l IH]; simpl; [reflexivity|].
  destruct (p a) eqn:Hp; simpl; [destruct (q a)|]; rewrite IH; reflexivity.
Qed.

(** C5. Filtering by borough [b] and then by year [y] gives the same rows, in
    the same order, as filtering by year [y] and then by borough [b]: both
    return the rows whose borough is [b] and whose crash year is [y]. *)
Theorem df_filter_by_borough_year_commute (df : DataFrame) (b y : Value) :
  (d <- df_filter_by df "borough" b ;; df_filter_by d "year" y) =
  (d <- df_filter_by df "year" y ;; df_filter_by d "borough" b)
  /\ (d <- df_filter_by df "borough" b ;; df_filter_by d "year" y) =
     Some (filter (fun r => str_eq_value (BOROUGH r) b
                            && int_eq_value (dt_year r) y) df).
Proof.
  rewrite !df_filter_by_borough, !df_filter_by_year; simpl.
  rewrite !df_filter_by_borough, !df_filter_by_year.
  split.
  - f_equal. apply filter_filter_comm.
  - f_equal. apply filter_filter_andb.
Qed.

(** Any two recognised filters commute, and an unknown column fails in
    either order. *)
Lemma df_filter_by_commute (df : DataFrame) (c1 c2 : string) (v1 v2 : Value) :
  (d <- df_filter_by df c1 v1 ;; df_filter_by d c2 v2) =
  (d <- df_filter_by df c2 v2 ;; df_filter_by d c1 v1).
Proof.
  rewrite (df_filter_by_mask df c1), (df_filter_by_mask df c2).
  destruct (column_mask c1) as [m1|] eqn:H1, (column_mask c2) as [m2|] eqn:H2;
    simpl; rewrite ?df_filter_by_mask, ?H1, ?H2; simpl; try reflexivity.
  f_equal. apply filter_filter_comm.
Qed.

(** C10. For a column selector outside borough, year, month, day and hour,
    [df_filter_by] returns no frame at all ([None]), whatever the frame and
    the value; it neither raises in the function nor returns an empty
    frame. *)
Theorem df_filter_by_unknown_column (df : DataFrame) (column : string)
  (value : Value) :
  ~ In column ["borough"; "year"; "month"; "day"; "hour"] ->
  df_filter_by df column value = None.
Proof.
  intros Hnot. unfold df_filter_by.
  repeat match goal with
         | |- context [String.eqb ?a ?b] =>
             destruct (String.eqb_spec a b) as [->|_];
             [exfalso; apply Hnot; simpl; tauto|]
         end.
  reflexivity.
Qed.

Lemma df_filter_by_unknown_column_witness :
  ~ In "weekday" ["borough"; "year"; "month"; "day"; "hour"]
  /\ df_filter_by Sample.three_rows "weekday" (Str "Monday") = None.
Proof.
  assert (H : ~ In "weekday" ["borough"; "year"; "month"; "day"; "hour"]).
  { simpl. intros [E|[E|[E|[E|[E|[]]]]]]; discriminate E. }
  split; [exact H|].
  exact (df_filter_by_unknown_column Sample.three_rows "weekday" (Str "Monday") H).
Defined.

(** A recognised column always yields a frame. *)
Lemma df_filter_by_known_column (df : DataFrame) (column : string) (value : Value) :
  In column ["borough"; "year"; "month"; "day"; "hour"] ->
  exists subset, df_filter_by df column value = Some subset.
Proof.
  simpl. intros [<-|[<-|[<-|[<-|[<-|[]]]]]]; eexists; reflexivity.
Qed.

(* ================================================================== *)
(** * The cleaning pass                                                *)
(* ================================================================== *)

Lemma read_data_cleaned (collision_df : DataFrame) :
  fst (read_data collision_df) =
  keep_within_nyc
    (fix_queensboro
       (keep_labelled_or_located (fill_missing_coordinates collision_df))).
Proof. reflexivity. Qed.

Lemma borough_or_longitude_mask_spec (r : Row) :
  borough_or_longitude_mask r =
  notnull (BOROUGH r) || negb (PrimFloat.eqb (LONGITUDE r) 0).
Proof.
  unfold borough_or_longitude_mask, bool_ne_0, bool_or_float.
  destruct (notnull (BOROUGH r)), (PrimFloat.eqb (LONGITUDE r) 0); reflexivity.
Qed.

Lemma fix_queensboro_row_labelled_or_located (r : Row) :
  borough_or_longitude_mask r = true ->
  notnull (BOROUGH (fix_queensboro_row r)) = true
  \/ PrimFloat.eqb (LONGITUDE (fix_queensboro_row r)) 0 = false.
Proof.
  rewrite borough_or_longitude_mask_spec. unfold fix_queensboro_row.
  destruct (PrimFloat.eqb (LONGITUDE r) QUEENSBORO_WRONG_LONGITUDE); simpl.
  - intros _. left. reflexivity.
  - destruct (notnull (BOROUGH r)); simpl; [now left|].
    destruct (PrimFloat.eqb (LONGITUDE r) 0); [discriminate|now right].
Qed.

(** C1. Every record of the cleaned set returned by [read_data] has a
    borough label or a longitude different from 0: no record with a null
    borough and a zero longitude survives cleaning. *)
Theorem read_data_borough_or_longitude (collision_df : DataFrame) :
  Forall (fun r => notnull (BOROUGH r) = true
                   \/ PrimFloat.eqb (LONGITUDE r) 0 = false)
         (fst (read_data collision_df)).
Proof.
  rewrite read_data_cleaned. apply Forall_forall. intros r Hin.
  unfold keep_within_nyc in Hin. apply filter_In in Hin. destruct Hin as [Hin _].
  unfold fix_queensboro in Hin. apply in_map_iff in Hin.
  destruct Hin as [r0 [<- Hin]].
  unfold keep_labelled_or_located in Hin. apply filter_In in Hin.
  destruct Hin as [_ Hmask].
  now apply fix_queensboro_row_labelled_or_located.
Qed.

(** C3. The correction step of [read_data] rewrites exactly the records
    whose longitude equals -201.23706: their borough becomes MANHATTAN and
    their longitude -73.95337, every other column is kept, and every other
    record is left as it was.  [read_data] runs this step between its two
    filters. *)
Theorem fix_queensboro_spec (df : DataFrame) :
  Forall2
    (fun r r' =>
       if PrimFloat.eqb (LONGITUDE r) (-201.23706)%float
       then r' = set_borough_longitude r (Some "MANHATTAN") (-73.95337)%float
            /\ BOROUGH r' = Some "MANHATTAN"
            /\ LONGITUDE r' = (-73.95337)%float
            /\ LATITUDE r' = LATITUDE r
            /\ CRASH_TIME r' = CRASH_TIME r
       else r' = r)
    df (fix_queensboro df)
  /\ fst (read_data df) =
     keep_within_nyc
       (fix_queensboro (keep_labelled_or_located (fill_missing_coordinates df))).
Proof.
  split; [|reflexivity].
  induction df as [|r df IH]; simpl; constructor; [|exact IH].
  unfold fix_queensboro_row, QUEENSBORO_WRONG_LONGITUDE, QUEENSBORO_LONGITUDE.
  destruct (PrimFloat.eqb (LONGITUDE r) (-201.23706)%float); simpl; auto.
Qed.

(** The Queensboro Bridge record leaves [read_data] labelled MANHATTAN with
    longitude -73.95337. *)
Lemma read_data_queensboro_record :
  fst (read_data [Sample.queensboro_raw]) =
  [set_borough_longitude Sample.queensboro_raw (Some "MANHATTAN")
     (-73.95337)%float].
Proof. vm_compute. reflexivity. Qed.

(** A record with neither label nor coordinates is dropped. *)
Lemma read_data_drops_unknown_place :
  fst (read_data [Sample.unknown_place]) = [].
Proof. vm_compute. reflexivity. Qed.

(** What the coordinate filter does guarantee: a cleaned record lies
    strictly inside the city box or has latitude 0. *)
Lemma read_data_within_nyc_or_zero_latitude (collision_df : DataFrame) :
  Forall (fun r => (within_lat r && within_long r = true)
                   \/ PrimFloat.eqb (LATITUDE r) 0 = true)
         (fst (read_data collision_df)).
Proof.
  rewrite read_data_cleaned. apply Forall_forall. intros r Hin.
  unfold keep_within_nyc in Hin. apply filter_In in Hin. destruct Hin as [_ H].
  apply orb_true_iff in H. destruct H as [H|H]; [now left|right].
  unfold no_lat_long in H. now apply andb_true_iff in H.
Qed.

(** C2. A labelled record whose latitude is missing and whose longitude is
    -73.9 stays in the cleaned set although its coordinates are not inside
    the city box and its longitude is not 0. *)
Theorem read_data_keeps_zero_latitude_row :
  let r := set_lat_long Sample.queens_without_latitude 0%float (-73.9)%float in
  fst (read_data [Sample.queens_without_latitude]) = [r]
  /\ BOROUGH r = Some "QUEENS"
  /\ PrimFloat.eqb (LATITUDE r) 0 = true
  /\ PrimFloat.eqb (LONGITUDE r) 0 = false
  /\ within_lat r && within_long r = false
  /\ no_lat_long r = true.
Proof.
  cbv zeta. repeat split; vm_compute; reflexivity.
Qed.

(* ================================================================== *)
(** * Insertion-ordered tables                                         *)
(* ================================================================== *)

Lemma bind_some {A B : Type} (a : A) (k : A -> option B) : bind (Some a) k = k a.
Proof. reflexivity. Qed.

Lemma for_each_total {A S : Type} (xs : list A) (body : S -> A -> option S)
  (step : S -> A -> S) :
  (forall s x, body s x = Some (step s x)) ->
  forall acc, for_each xs body acc = Some (fold_left step xs acc).
Proof.
  intros Hbody. induction xs as [|x xs IH]; intros acc; simpl; [reflexivity|].
  rewrite Hbody. simpl. apply IH.
Qed.

Lemma distinct_keys_split (l1 l2 : list Key) (k : Key) :
  distinct_keys (l1 ++ k :: l2) = true ->
  Forall (fun k' => Key_eqb k' k = false) l1 /\ Key_eqb k k = true.
Proof.
  induction l1 as [|a l1 IH]; simpl; intros H.
  - apply andb_true_iff in H as [H _]. apply andb_true_iff in H as [H _].
    split; [constructor|exact H].
  - apply andb_true_iff in H as [H Hd]. apply andb_true_iff in H as [_ Hf].
    rewrite forallb_app in Hf. apply andb_true_iff in Hf as [_ Hf].
    simpl in Hf. apply andb_true_iff in Hf as [Hak _].
    apply negb_true_iff in Hak.
    destruct (IH Hd) as [Hall Hk]. split; [constructor; assumption|exact Hk].
Qed.

Section AppendTo.

Context {A : Type}.
Implicit Types (counts pre post : Counts A) (k : Key) (x : A).

Lemma append_to_new counts k x :
  Forall (fun e => Key_eqb (fst e) k = false) counts ->
  append_to counts k x = counts ++ [(k, [x])].
Proof.
  induction 1 as [|[k' l] rest Hk _ IH]; simpl; [reflexivity|].
  simpl in Hk. rewrite Hk, IH. reflexivity.
Qed.

Lemma append_to_existing pre post k (l : list A) x :
  Forall (fun e => Key_eqb (fst e) k = false) pre ->
  Key_eqb k k = true ->
  append_to (pre ++ (k, l) :: post) k x = pre ++ (k, l ++ [x]) :: post.
Proof.
  intros Hpre Hk. induction Hpre as [|[k' l'] rest Hk' _ IH]; simpl.
  - rewrite Hk. reflexivity.
  - simpl in Hk'. rewrite Hk', IH. reflexivity.
Qed.

Variable f : Value * Key -> A.

Lemma keys_of_entries (h : Value * Key -> list A) (its : list (Value * Key))
  (k : Key) :
  Forall (fun k' => Key_eqb k' k = false) (map snd its) ->
  Forall (fun e => Key_eqb (fst e) k = false)
         (map (fun it => (snd it, h it)) its).
Proof.
  intros H. apply Forall_map. apply Forall_map in H.
  eapply Forall_impl; [|exact H]. intros it Hit. exact Hit.
Qed.

Lemma append_all_first_gen (todo done : list (Value * Key)) :
  distinct_keys (map snd (done ++ todo)) = true ->
  append_all todo f (map (fun it => (snd it, [f it])) done) =
  map (fun it => (snd it, [f it])) (done ++ todo).
Proof.
  revert done. induction todo as [|it todo IH]; intros done Hd.
  - rewrite app_nil_r. reflexivity.
  - unfold append_all in *. simpl.
    pose proof Hd as Hd'. rewrite map_app in Hd'. simpl in Hd'.
    apply distinct_keys_split in Hd' as [Hpre _].
    rewrite append_to_new by (apply keys_of_entries; exact Hpre).
    change [(snd it, [f it])] with (map (fun it => (snd it, [f it])) [it]).
    rewrite <- map_app.
    replace (done ++ it :: todo) with ((done ++ [it]) ++ todo)
      by (rewrite <- app_assoc; reflexivity).
    apply IH. rewrite <- app_assoc. exact Hd.
Qed.

Lemma append_all_first (items : list (Value * Key)) :
  distinct_keys (map snd items) = true ->
  append_all items f [] = map (fun it => (snd it, [f it])) items.
Proof. intros Hd. exact (append_all_first_gen items [] Hd). Qed.

Lemma append_all_next_gen (h : Value * Key -> list A)
  (todo done : list (Value * Key)) :
  distinct_keys (map snd (done ++ todo)) = true ->
  append_all todo f (map (fun it => (snd it, h it ++ [f it])) done
                     ++ map (fun it => (snd it, h it)) todo) =
  map (fun it => (snd it, h it ++ [f it])) (done ++ todo).
Proof.
  revert done. induction todo as [|it todo IH]; intros done Hd.
  - rewrite !app_nil_r. reflexivity.
  - unfold append_all in *. simpl.
    pose proof Hd as Hd'. rewrite map_app in Hd'. simpl in Hd'.
    apply distinct_keys_split in Hd' as [Hpre Hk].
    rewrite append_to_existing
      by (try apply keys_of_entries; assumption).
    replace (done ++ it :: todo) with ((done ++ [it]) ++ todo)
      by (rewrite <- app_assoc; reflexivity).
    rewrite <- IH by (rewrite <- app_assoc; exact Hd).
    rewrite map_app. simpl. rewrite <- app_assoc. reflexivity.
Qed.

Lemma append_all_next (h : Value * Key -> list A) (items : list (Value * Key)) :
  distinct_keys (map snd items) = true ->
  append_all items f (map (fun it => (snd it, h it)) items) =
  map (fun it => (snd it, h it ++ [f it])) items.
Proof. intros Hd. exact (append_all_next_gen h items [] Hd). Qed.

End AppendTo.

(** One [append_all] pass per year builds the table in item order with the
    years in order. *)
Lemma fold_years_table {A : Type} (items : list (Value * Key))
  (f : Z -> Value * Key -> A) (year : Z) (years : list Z) :
  distinct_keys (map snd items) = true ->
  fold_left (fun c y => append_all items (f y) c) (year :: years) [] =
  table_of items f (year :: years).
Proof.
  intros Hd. simpl. rewrite append_all_first by exact Hd.
  change (map (fun it => (snd it, [f year it])) items)
    with (table_of items f [year]).
  change (year :: years) with ([year] ++ years).
  generalize [year] as prefix. induction years as [|y years IH]; intros prefix.
  - rewrite app_nil_r. reflexivity.
  - simpl. unfold table_of at 1.
    rewrite (append_all_next (f y) (fun it => map (fun year => f year it) prefix))
      by exact Hd.
    replace (prefix ++ y :: years) with ((prefix ++ [y]) ++ years)
      by (rewrite <- app_assoc; reflexivity).
    rewrite <- IH. f_equal. unfold table_of. apply map_ext. intros it.
    rewrite map_app. reflexivity.
Qed.

Lemma YEARS_eq : YEARS = [2013; 2014; 2015; 2016; 2017; 2018; 2019; 2020].
Proof. reflexivity. Qed.

(** The closed form of the count table for a recognised column and an
    enumeration with distinct keys. *)
Lemma query_accidents_by_value_and_year_table (df : DataFrame)
  (column : string) (column_dict : ColumnDict) (mask : Value -> Row -> bool) :
  column_mask column = Some mask ->
  distinct_keys (map snd (column_items column_dict)) = true ->
  query_accidents_by_value_and_year df column column_dict =
  Some (count_table df mask (column_items column_dict)).
Proof.
  intros Hmask Hd. unfold query_accidents_by_value_and_year, count_table.
  rewrite (for_each_total YEARS _
             (fun c y => append_all (column_items column_dict)
                           (fun it => bucket_count df (mask (fst it)) y) c)).
  - rewrite YEARS_eq. f_equal. apply fold_years_table. exact Hd.
  - intros counts year. rewrite df_filter_by_year. simpl.
    apply for_each_total. intros c [v k].
    rewrite df_filter_by_mask, Hmask. reflexivity.
Qed.

(* ================================================================== *)
(** * Calendar fields                                                  *)
(* ================================================================== *)

Lemma month_from_march_range (doe : Z) :
  0 <= doe < 146097 -> 0 <= Datetime.month_from_march doe <= 11.
Proof.
  intros H.
  unfold Datetime.month_from_march, Datetime.day_of_year, Datetime.year_of_era.
  Z.div_mod_to_equations; lia.
Qed.

Lemma month_range (ns : Z) : 1 <= Datetime.month ns <= 12.
Proof.
  unfold Datetime.month, Datetime.month_of_days.
  pose proof (month_from_march_range (Datetime.day_of_era (Datetime.days ns))) as H.
  assert (Hdoe : 0 <= Datetime.day_of_era (Datetime.days ns) < 146097)
    by (unfold Datetime.day_of_era; apply Z.mod_pos_bound; lia).
  specialize (H Hdoe).
  destruct (Datetime.month_from_march _ <? 10) eqn:E;
    [apply Z.ltb_lt in E|apply Z.ltb_ge in E]; lia.
Qed.

Lemma hour_range (ns : Z) : 0 <= Datetime.hour ns < 24.
Proof. unfold Datetime.hour. apply Z.mod_pos_bound. lia. Qed.

Lemma dayofweek_range (ns : Z) : 0 <= Datetime.dayofweek ns < 7.
Proof. unfold Datetime.dayofweek. apply Z.mod_pos_bound. lia. Qed.

(* ================================================================== *)
(** * Counting by category                                             *)
(* ================================================================== *)

Lemma total_plus {A : Type} (g h : A -> Z) (l : list A) :
  total (fun a => g a + h a) l = total g l + total h l.
Proof.
  unfold total. induction l as [|a l IH]; simpl; [reflexivity|]. rewrite IH. lia.
Qed.

Lemma total_ext_in {A : Type} (g h : A -> Z) (l : list A) :
  (forall a, In a l -> g a = h a) -> total g l = total h l.
Proof.
  unfold total. intros H. f_equal. apply map_ext_in. exact H.
Qed.

Lemma shape0_filter_total (q : Row -> bool) (l : DataFrame) :
  shape0 (filter q l) = total (fun r => if q r then 1 else 0) l.
Proof.
  unfold shape0, total. induction l as [|r l IH]; [reflexivity|].
  cbn [filter map fold_right]. rewrite <- IH.
  destruct (q r); cbn [List.length]; rewrite ?Nat2Z.inj_succ; lia.
Qed.

Lemma shape0_total (l : DataFrame) : shape0 l = total (fun _ => 1) l.
Proof.
  unfold shape0, total. induction l as [|r l IH]; [reflexivity|].
  cbn [map fold_right List.length]. rewrite <- IH, Nat2Z.inj_succ. lia.
Qed.

(** Summing the sizes of the per-value subsets counts every record once
    per value it matches. *)
Lemma total_shape0_matches (vs : list Value) (mask : Value -> Row -> bool)
  (l : DataFrame) :
  total (fun v => shape0 (filter (mask v) l)) vs = total (matches vs mask) l.
Proof.
  induction vs as [|v vs IH].
  - unfold matches, total. simpl. induction l; simpl; [reflexivity|lia].
  - change (total (fun v => shape0 (filter (mask v) l)) (v :: vs))
      with (shape0 (filter (mask v) l)
            + total (fun v => shape0 (filter (mask v) l)) vs).
    rewrite IH, shape0_filter_total, <- total_plus.
    apply total_ext_in. intros r _. unfold matches. simpl.
    destruct (mask v r); cbn [List.length]; rewrite ?Nat2Z.inj_succ; lia.
Qed.

(** The total at one position of a table is the sum of that year's
    buckets. *)
Lemma column_total_count_table (df : DataFrame) (mask : Value -> Row -> bool)
  (items : list (Value * Key)) (i : nat) (year : Z) :
  nth_error YEARS i = Some year ->
  column_total (count_table df mask items) i =
  total (matches (map fst items) mask) (filter (in_year year) df).
Proof.
  intros Hi. rewrite <- total_shape0_matches.
  unfold column_total, count_table, table_of, total. rewrite !map_map.
  f_equal. apply map_ext. intros it. cbn [snd].
  change (shape0 (filter (mask (fst it)) (filter (in_year year) df)))
    with ((fun y => bucket_count df (mask (fst it)) y) year).
  apply nth_error_nth. apply map_nth_error. exact Hi.
Qed.

Lemma in_year_timestamp (year : Z) (r : Row) :
  in_year year r = true -> exists ns, CRASH_TIME r = Some ns.
Proof.
  unfold in_year, dt_year. destruct (CRASH_TIME r) as [ns|]; simpl.
  - intros _. now exists ns.
  - discriminate.
Qed.

Lemma matches_month (r : Row) (ns : Z) :
  CRASH_TIME r = Some ns -> matches (map fst MONTHS) month_is r = 1.
Proof.
  intros Ht. unfold matches, month_is, dt_month. rewrite Ht. simpl option_map.
  pose proof (month_range ns) as H.
  assert (Hm : In (Datetime.month ns) (py_range 1 13)).
  { apply in_map_iff. exists (Z.to_nat (Datetime.month ns - 1)).
    split; [lia|]. apply in_seq. simpl. lia. }
  generalize dependent (Datetime.month ns). intros m _ Hm.
  vm_compute in Hm.
  repeat (destruct Hm as [<-|Hm]; [reflexivity|]). destruct Hm.
Qed.

Lemma matches_hour (r : Row) (ns : Z) :
  CRASH_TIME r = Some ns ->
  matches (map fst (column_items (AsIterable (map Int HOURS)))) hour_is r = 1.
Proof.
  intros Ht. unfold matches, hour_is, dt_hour. rewrite Ht. simpl option_map.
  pose proof (hour_range ns) as H.
  assert (Hm : In (Datetime.hour ns) (py_range 0 24)).
  { apply in_map_iff. exists (Z.to_nat (Datetime.hour ns)).
    split; [lia|]. apply in_seq. simpl. lia. }
  generalize dependent (Datetime.hour ns). intros m _ Hm.
  vm_compute in Hm.
  repeat (destruct Hm as [<-|Hm]; [reflexivity|]). destruct Hm.
Qed.

Lemma matches_day (r : Row) (ns : Z) :
  CRASH_TIME r = Some ns ->
  matches (map fst (column_items (AsIterable DAYS))) day_is r = 1.
Proof.
  intros Ht. unfold matches, day_is, dt_day_name. rewrite Ht. simpl option_map.
  unfold Datetime.day_name.
  pose proof (dayofweek_range ns) as H.
  assert (Hm : In (Datetime.dayofweek ns) (py_range 0 7)).
  { apply in_map_iff. exists (Z.to_nat (Datetime.dayofweek ns)).
    split; [lia|]. apply in_seq. simpl. lia. }
  generalize dependent (Datetime.dayofweek ns). intros m _ Hm.
  vm_compute in Hm.
  repeat (destruct Hm as [<-|Hm]; [reflexivity|]). destruct Hm.
Qed.

Lemma matches_borough (r : Row) :
  matches (map fst BOROUGH_COORDS) borough_is r =
  if has_declared_borough r then 1 else 0.
Proof.
  unfold matches, borough_is, has_declared_borough.
  destruct (BOROUGH r) as [s|]; [|reflexivity].
  simpl.
  repeat match goal with
         | |- context [String.eqb s ?t] =>
             destruct (String.eqb_spec s t) as [->|_]; [reflexivity|]
         end.
  reflexivity.
Qed.

Lemma filter_true {A : Type} (l : list A) : filter (fun _ => true) l = l.
Proof. induction l as [|a l IH]; simpl; [reflexivity|]. now rewrite IH. Qed.

Lemma column_totals_count_table (df : DataFrame) (mask : Value -> Row -> bool)
  (items : list (Value * Key)) (q : Row -> bool) :
  (forall r, (exists ns, CRASH_TIME r = Some ns) ->
             matches (map fst items) mask r = if q r then 1 else 0) ->
  column_totals (count_table df mask items) =
  map (fun year => shape0 (filter q (filter (in_year year) df))) YEARS.
Proof.
  intros Hmatch.
  assert (H : forall i year, nth_error YEARS i = Some year ->
            column_total (count_table df mask items) i =
            shape0 (filter q (filter (in_year year) df))).
  { intros i year Hi. rewrite (column_total_count_table _ _ _ _ _ Hi).
    rewrite shape0_filter_total. apply total_ext_in. intros r Hin.
    apply Hmatch. apply filter_In in Hin as [_ Hin].
    exact (in_year_timestamp _ _ Hin). }
  unfold column_totals. rewrite YEARS_eq in *. cbn [seq map].
  rewrite (H 0%nat 2013 eq_refl), (H 1%nat 2014 eq_refl),
    (H 2%nat 2015 eq_refl), (H 3%nat 2016 eq_refl), (H 4%nat 2017 eq_refl),
    (H 5%nat 2018 eq_refl), (H 6%nat 2019 eq_refl), (H 7%nat 2020 eq_refl).
  reflexivity.
Qed.

Lemma column_totals_partition (df : DataFrame) (mask : Value -> Row -> bool)
  (items : list (Value * Key)) :
  (forall r ns, CRASH_TIME r = Some ns -> matches (map fst items) mask r = 1) ->
  column_totals (count_table df mask items) =
  map (fun year => shape0 (filter (in_year year) df)) YEARS.
Proof.
  intros Hmatch.
  rewrite (column_totals_count_table df mask items (fun _ => true)).
  - apply map_ext. intros year. now rewrite filter_true.
  - intros r [ns Hns]. exact (Hmatch r ns Hns).
Qed.

(* ================================================================== *)
(** * Count tables                                                     *)
(* ================================================================== *)

Lemma query_month_table (df : DataFrame) :
  query_accidents_by_value_and_year df "month" (AsDict MONTHS) =
  Some (count_table df month_is MONTHS).
Proof. apply query_accidents_by_value_and_year_table; reflexivity. Qed.

Lemma query_day_table (df : DataFrame) :
  query_accidents_by_value_and_year df "day" (AsIterable DAYS) =
  Some (count_table df day_is (map (fun v => (v, KVal v)) DAYS)).
Proof. apply query_accidents_by_value_and_year_table; reflexivity. Qed.

Lemma query_hour_table (df : DataFrame) :
  query_accidents_by_value_and_year df "hour" (AsIterable (map Int HOURS)) =
  Some (count_table df hour_is (map (fun v => (v, KVal v)) (map Int HOURS))).
Proof. apply query_accidents_by_value_and_year_table; reflexivity. Qed.

Lemma query_borough_table (df : DataFrame) :
  query_accidents_by_value_and_year df "borough" (AsDict BOROUGH_COORDS) =
  Some (count_table df borough_is BOROUGH_COORDS).
Proof. apply query_accidents_by_value_and_year_table; reflexivity. Qed.

Lemma Forall2_le_map {A : Type} (f g : A -> Z) (l : list A) :
  (forall a, f a <= g a) -> Forall2 Z.le (map f l) (map g l).
Proof.
  intros H. induction l as [|a l IH]; simpl; constructor; [apply H|exact IH].
Qed.

(** C7. In every count table of [query_accidents_by_value_and_year] the
    sequence of a category holds the counts of 2013, 2014, ..., 2020 at
    positions 0 to 7, and the categories come in enumeration order: months
    1 to 12, weekdays from Sunday, hours 0 to 23, boroughs as declared. *)
Theorem count_table_order (df : DataFrame) :
  (forall mask items,
     count_table df mask items =
     map (fun it =>
            (snd it,
             [ bucket_count df (mask (fst it)) 2013;
               bucket_count df (mask (fst it)) 2014;
               bucket_count df (mask (fst it)) 2015;
               bucket_count df (mask (fst it)) 2016;
               bucket_count df (mask (fst it)) 2017;
               bucket_count df (mask (fst it)) 2018;
               bucket_count df (mask (fst it)) 2019;
               bucket_count df (mask (fst it)) 2020 ])) items)
  /\ query_accidents_by_value_and_year df "month" (AsDict MONTHS) =
     Some (count_table df month_is MONTHS)
  /\ map fst MONTHS = map Int [1; 2; 3; 4; 5; 6; 7; 8; 9; 10; 11; 12]
  /\ query_accidents_by_value_and_year df "day" (AsIterable DAYS) =
     Some (count_table df day_is (map (fun v => (v, KVal v)) DAYS))
  /\ DAYS = map Str ["Sunday"; "Monday"; "Tuesday"; "Wednesday"; "Thursday";
                     "Friday"; "Saturday"]
  /\ query_accidents_by_value_and_year df "hour" (AsIterable (map Int HOURS)) =
     Some (count_table df hour_is (map (fun v => (v, KVal v)) (map Int HOURS)))
  /\ HOURS = [0; 1; 2; 3; 4; 5; 6; 7; 8; 9; 10; 11; 12; 13; 14; 15; 16; 17;
              18; 19; 20; 21; 22; 23]
  /\ query_accidents_by_value_and_year df "borough" (AsDict BOROUGH_COORDS) =
     Some (count_table df borough_is BOROUGH_COORDS)
  /\ map fst BOROUGH_COORDS =
     map Str ["STATEN ISLAND"; "BRONX"; "QUEENS"; "MANHATTAN"; "BROOKLYN"].
Proof.
  split; [intros mask items; reflexivity|].
  split; [apply query_month_table|]. split; [reflexivity|].
  split; [apply query_day_table|]. split; [reflexivity|].
  split; [apply query_hour_table|]. split; [reflexivity|].
  split; [apply query_borough_table|reflexivity].
Qed.

(** C8. For three records of 2013, 2013 and 2014 labelled MANHATTAN, QUEENS
    and MANHATTAN, the table over the categories MANHATTAN and QUEENS is
    MANHATTAN: [1,1,0,0,0,0,0,0], QUEENS: [1,0,0,0,0,0,0,0]: the sequences
    always span the eight years 2013 to 2020 and start with [1,1] and
    [1,0].  Over [BOROUGH_COORDS] the table has all five boroughs, keyed by
    their coordinate pairs. *)
Theorem borough_year_scenario (r1 r2 r3 : Row) :
  dt_year r1 = Some 2013 -> dt_year r2 = Some 2013 -> dt_year r3 = Some 2014 ->
  BOROUGH r1 = Some "MANHATTAN" -> BOROUGH r2 = Some "QUEENS" ->
  BOROUGH r3 = Some "MANHATTAN" ->
  query_accidents_by_value_and_year [r1; r2; r3] "borough"
    (AsIterable [Str "MANHATTAN"; Str "QUEENS"]) =
  Some [ (KVal (Str "MANHATTAN"), [1; 1; 0; 0; 0; 0; 0; 0]);
         (KVal (Str "QUEENS"), [1; 0; 0; 0; 0; 0; 0; 0]) ]
  /\ query_accidents_by_value_and_year [r1; r2; r3] "borough"
       (AsDict BOROUGH_COORDS) =
     Some [ (KPair 40.58 74.15, [0; 0; 0; 0; 0; 0; 0; 0]);
            (KPair 40.84 73.86, [0; 0; 0; 0; 0; 0; 0; 0]);
            (KPair 40.73 73.79, [1; 0; 0; 0; 0; 0; 0; 0]);
            (KPair 40.78 73.97, [1; 1; 0; 0; 0; 0; 0; 0]);
            (KPair 40.68 73.94, [0; 0; 0; 0; 0; 0; 0; 0]) ].
Proof.
  intros Hy1 Hy2 Hy3 Hb1 Hb2 Hb3.
  rewrite !(query_accidents_by_value_and_year_table _ "borough" _ borough_is)
    by reflexivity.
  unfold count_table, table_of, bucket_count, in_year, borough_is.
  rewrite YEARS_eq.
  cbn [column_items map filter fst snd BOROUGH_COORDS].
  rewrite Hy1, Hy2, Hy3.
  cbn [int_eq_value Z.eqb Pos.eqb filter].
  rewrite Hb1, Hb2, Hb3.
  split; reflexivity.
Qed.

Lemma borough_year_scenario_witness :
  (map dt_year Sample.three_rows = [Some 2013; Some 2013; Some 2014]
   /\ map BOROUGH Sample.three_rows =
      [Some "MANHATTAN"; Some "QUEENS"; Some "MANHATTAN"])
  /\ query_accidents_by_value_and_year Sample.three_rows "borough"
       (AsIterable [Str "MANHATTAN"; Str "QUEENS"]) =
     Some [ (KVal (Str "MANHATTAN"), [1; 1; 0; 0; 0; 0; 0; 0]);
            (KVal (Str "QUEENS"), [1; 0; 0; 0; 0; 0; 0; 0]) ]
  /\ query_accidents_by_value_and_year Sample.three_rows "borough"
       (AsDict BOROUGH_COORDS) =
     Some [ (KPair 40.58 74.15, [0; 0; 0; 0; 0; 0; 0; 0]);
            (KPair 40.84 73.86, [0; 0; 0; 0; 0; 0; 0; 0]);
            (KPair 40.73 73.79, [1; 0; 0; 0; 0; 0; 0; 0]);
            (KPair 40.78 73.97, [1; 1; 0; 0; 0; 0; 0; 0]);
            (KPair 40.68 73.94, [0; 0; 0; 0; 0; 0; 0; 0]) ].
Proof.
  split; [split; reflexivity|].
  apply (borough_year_scenario Sample.manhattan_2013 Sample.queens_2013
           Sample.manhattan_2014); reflexivity.
Defined.

Lemma borough_year_scenario_two_entries_fails :
  query_accidents_by_value_and_year Sample.three_rows "borough"
    (AsDict BOROUGH_COORDS) <>
  Some [ (KVal (Str "MANHATTAN"), [1; 1]); (KVal (Str "QUEENS"), [1; 0]) ]
  /\ query_accidents_by_value_and_year Sample.three_rows "borough"
       (AsIterable [Str "MANHATTAN"; Str "QUEENS"]) <>
     Some [ (KVal (Str "MANHATTAN"), [1; 1]); (KVal (Str "QUEENS"), [1; 0]) ].
Proof.
  split; intros H; vm_compute in H; discriminate H.
Qed.

(** C4. For the month, weekday and hour tables, the entries at a year's
    position sum, over all categories, to the number of records of that
    year.  For the borough table they sum to the number of that year's
    records that carry one of the five declared borough names, which is at
    most the number of records of that year. *)
Theorem count_table_totals (df : DataFrame) :
  (forall year, df_filter_by df "year" (Int year) =
                Some (filter (in_year year) df))
  /\ (exists table,
        query_accidents_by_value_and_year df "month" (AsDict MONTHS) = Some table
        /\ column_totals table =
           map (fun year => shape0 (filter (in_year year) df)) YEARS)
  /\ (exists table,
        query_accidents_by_value_and_year df "day" (AsIterable DAYS) = Some table
        /\ column_totals table =
           map (fun year => shape0 (filter (in_year year) df)) YEARS)
  /\ (exists table,
        query_accidents_by_value_and_year df "hour" (AsIterable (map Int HOURS))
        = Some table
        /\ column_totals table =
           map (fun year => shape0 (filter (in_year year) df)) YEARS)
  /\ (exists table,
        query_accidents_by_value_and_year df "borough" (AsDict BOROUGH_COORDS)
        = Some table
        /\ column_totals table =
           map (fun year =>
                  shape0 (filter has_declared_borough (filter (in_year year) df)))
               YEARS
        /\ Forall2 Z.le (column_totals table)
             (map (fun year => shape0 (filter (in_year year) df)) YEARS)).
Proof.
  split; [reflexivity|].
  repeat split.
  - eexists. split; [apply query_month_table|].
    apply column_totals_partition. exact matches_month.
  - eexists. split; [apply query_day_table|].
    apply column_totals_partition. exact matches_day.
  - eexists. split; [apply query_hour_table|].
    apply column_totals_partition. exact matches_hour.
  - eexists. split; [apply query_borough_table|].
    assert (Ht : column_totals (count_table df borough_is BOROUGH_COORDS) =
                 map (fun year =>
                        shape0 (filter has_declared_borough
                                  (filter (in_year year) df))) YEARS).
    { apply column_totals_count_table. intros r _. apply matches_borough. }
    split; [exact Ht|]. rewrite Ht.
    apply Forall2_le_map. intros year.
    unfold shape0. apply Nat2Z.inj_le, filter_length_le.
Qed.

Lemma count_table_totals_miss_unlabelled :
  exists table,
    query_accidents_by_value_and_year [Sample.unlabelled_2013] "borough"
      (AsDict BOROUGH_COORDS) = Some table
    /\ fst (read_data [Sample.unlabelled_2013]) = [Sample.unlabelled_2013]
    /\ nth_error YEARS 0 = Some 2013
    /\ df_filter_by [Sample.unlabelled_2013] "year" (Int 2013) =
       Some [Sample.unlabelled_2013]
    /\ column_total table 0 = 0
    /\ column_total table 0 <> shape0 [Sample.unlabelled_2013].
Proof.
  eexists. split; [vm_compute; reflexivity|].
  repeat split; try (vm_compute; reflexivity).
  vm_compute. discriminate.
Qed.

(* ================================================================== *)
(** * Deaths per accident                                              *)
(* ================================================================== *)

Lemma fold_left_pair {A S T : Type} (f : S -> A -> S) (g : T -> A -> T)
  (xs : list A) (s : S) (t : T) :
  fold_left (fun st x => (f (fst st) x, g (snd st) x)) xs (s, t) =
  (fold_left f xs s, fold_left g xs t).
Proof.
  revert s t. induction xs as [|x xs IH]; intros s t; simpl; [reflexivity|].
  apply IH.
Qed.

(** The function always returns, with both tables in month order and year
    order. *)
Lemma query_accidents_by_deaths_and_month_tables (df : DataFrame) :
  query_accidents_by_deaths_and_month df =
  Some (YEARS,
        table_of MONTHS (fun year it => deaths_in df year (fst it)) YEARS,
        table_of MONTHS
          (fun year it =>
             true_divide (deaths_in df year (fst it))
                         (bucket_count df (month_is (fst it)) year))
          YEARS).
Proof.
  unfold query_accidents_by_deaths_and_month.
  rewrite (for_each_total YEARS _
    (fun st y =>
       (append_all MONTHS (fun it => deaths_in df y (fst it)) (fst st),
        append_all MONTHS
          (fun it => true_divide (deaths_in df y (fst it))
                                 (bucket_count df (month_is (fst it)) y))
          (snd st)))).
  - rewrite (fold_left_pair
               (fun c y => append_all MONTHS (fun it => deaths_in df y (fst it)) c)
               (fun c y => append_all MONTHS
                  (fun it => true_divide (deaths_in df y (fst it))
                               (bucket_count df (month_is (fst it)) y)) c)).
    rewrite YEARS_eq, !fold_years_table by reflexivity. reflexivity.
  - intros [dc dr] year. rewrite df_filter_by_year, bind_some.
    cbn [fst snd]. unfold append_all.
    rewrite <- (fold_left_pair
      (fun c it => append_to c (snd it) (deaths_in df year (fst it)))
      (fun c it => append_to c (snd it)
         (true_divide (deaths_in df year (fst it))
                      (bucket_count df (month_is (fst it)) year)))).
    apply for_each_total. intros [c1 c2] [month name]. reflexivity.
Qed.

(** C6. When a month of a year holds no accident, the ratio aggregation
    still returns its three results, and the deaths-per-accident entry of
    that month at that year's position is the not-a-number value: the
    division 0/0 of NumPy scalars does not raise. *)
Theorem deaths_ratio_of_empty_month (df : DataFrame) (i j : nat) (year : Z)
  (month : Value) (name : Key) :
  nth_error YEARS i = Some year ->
  nth_error MONTHS j = Some (month, name) ->
  (year_df <- df_filter_by df "year" (Int year) ;;
   df_filter_by year_df "month" month) = Some [] ->
  exists death_counts death_ratio ratios ratio,
    query_accidents_by_deaths_and_month df =
    Some (YEARS, death_counts, death_ratio)
    /\ nth_error death_ratio j = Some (name, ratios)
    /\ nth_error ratios i = Some ratio
    /\ PrimFloat.is_nan ratio = true.
Proof.
  intros Hi Hj Hempty.
  rewrite df_filter_by_year in Hempty. simpl in Hempty.
  injection Hempty as Hempty.
  rewrite query_accidents_by_deaths_and_month_tables.
  set (ratio_of := fun y m =>
         true_divide (deaths_in df y m) (bucket_count df (month_is m) y)).
  exists (table_of MONTHS (fun y it => deaths_in df y (fst it)) YEARS),
         (table_of MONTHS (fun y it => ratio_of y (fst it)) YEARS),
         (map (fun y => ratio_of y month) YEARS), (ratio_of year month).
  split; [reflexivity|].
  split; [exact (map_nth_error _ _ _ Hj)|].
  split; [exact (map_nth_error _ _ _ Hi)|].
  unfold ratio_of, deaths_in, bucket_count, month_is, in_year.
  rewrite Hempty. reflexivity.
Qed.

Lemma deaths_ratio_of_empty_month_witness :
  (nth_error YEARS 0 = Some 2013
   /\ nth_error MONTHS 1 = Some (Int 2, KVal (Str "February"))
   /\ (year_df <- df_filter_by Sample.three_rows "year" (Int 2013) ;;
       df_filter_by year_df "month" (Int 2)) = Some [])
  /\ exists death_counts death_ratio ratios ratio,
       query_accidents_by_deaths_and_month Sample.three_rows =
       Some (YEARS, death_counts, death_ratio)
       /\ nth_error death_ratio 1 = Some (KVal (Str "February"), ratios)
       /\ nth_error ratios 0 = Some ratio
       /\ PrimFloat.is_nan ratio = true.
Proof.
  split; [repeat split; reflexivity|].
  apply (deaths_ratio_of_empty_month Sample.three_rows 0 1 2013 (Int 2)
           (KVal (Str "February"))); reflexivity.
Defined.

(* ================================================================== *)
(** * Comparisons of binary64 values                                   *)
(* ================================================================== *)

Lemma SFcompare_refl (s : spec_float) :
  s <> S754_nan -> SFcompare s s = Some Eq.
Proof.
  destruct s as [b|b| |b m e]; simpl; intros H; try reflexivity.
  - destruct b; reflexivity.
  - congruence.
  - rewrite Z.compare_refl, Pos.compare_cont_refl. destruct b; reflexivity.
Qed.

Lemma ltb_not_nan_r (c x : float) :
  PrimFloat.ltb c x = true -> PrimFloat.is_nan x = false.
Proof.
  unfold PrimFloat.is_nan. rewrite FloatAxioms.ltb_spec, FloatAxioms.eqb_spec. unfold SFltb, SFeqb.
  intros H. rewrite SFcompare_refl; [reflexivity|].
  intros E. rewrite E in H. destruct (Prim2SF c); discriminate H.
Qed.

Lemma ltb_not_nan_l (x c : float) :
  PrimFloat.ltb x c = true -> PrimFloat.is_nan x = false.
Proof.
  unfold PrimFloat.is_nan. rewrite FloatAxioms.ltb_spec, FloatAxioms.eqb_spec. unfold SFltb, SFeqb.
  intros H. rewrite SFcompare_refl; [reflexivity|].
  intros E. rewrite E in H. discriminate H.
Qed.

Lemma ltb_positive_nonzero (c x : float) :
  PrimFloat.ltb 0 c = true -> PrimFloat.ltb c x = true ->
  PrimFloat.eqb x 0 = false.
Proof.
  rewrite !FloatAxioms.ltb_spec, FloatAxioms.eqb_spec. unfold SFltb, SFeqb.
  change (Prim2SF 0) with (S754_zero false).
  destruct (Prim2SF c) as [b|b| |b m e], (Prim2SF x) as [b'|b'| |b' m' e'];
    simpl; try discriminate; try reflexivity;
    repeat match goal with b : bool |- _ => destruct b end;
    simpl; try discriminate; try reflexivity.
Qed.

Lemma ltb_negative_nonzero (c x : float) :
  PrimFloat.ltb c 0 = true -> PrimFloat.ltb x c = true ->
  PrimFloat.eqb x 0 = false.
Proof.
  rewrite !FloatAxioms.ltb_spec, FloatAxioms.eqb_spec. unfold SFltb, SFeqb.
  change (Prim2SF 0) with (S754_zero false).
  destruct (Prim2SF c) as [b|b| |b m e], (Prim2SF x) as [b'|b'| |b' m' e'];
    simpl; try discriminate; try reflexivity;
    repeat match goal with b : bool |- _ => destruct b end;
    simpl; try discriminate; try reflexivity.
Qed.

(** Equality with a finite non-zero value fixes the value. *)
Lemma eqb_finite_same (x a : float) (b : bool) (m : positive) (e : Z) :
  Prim2SF a = S754_finite b m e ->
  PrimFloat.eqb x a = true -> Prim2SF x = Prim2SF a.
Proof.
  intros Ha. rewrite FloatAxioms.eqb_spec, Ha. unfold SFeqb.
  destruct (Prim2SF x) as [b'|b'| |b' m' e']; simpl; try discriminate.
  - destruct b; discriminate.
  - destruct b'; discriminate.
  - destruct b', b; try discriminate;
      destruct (Z.compare_spec e' e) as [->| |]; try discriminate;
      destruct (Pos.compare_cont Eq m' m) eqn:E; try discriminate;
      apply Pos.compare_eq in E; subst; reflexivity.
Qed.

(* ================================================================== *)
(** * More on the record filters                                       *)
(* ================================================================== *)

Lemma filter_idempotent {A : Type} (p : A -> bool) (l : list A) :
  filter p (filter p l) = filter p l.
Proof.
  induction l as [|a l IH]; simpl; [reflexivity|].
  destruct (p a) eqn:Hp; simpl; rewrite ?Hp, IH; reflexivity.
Qed.

Lemma filter_none {A : Type} (p : A -> bool) (l : list A) :
  (forall a, In a l -> p a = false) -> filter p l = [].
Proof.
  induction l as [|a l IH]; simpl; intros H; [reflexivity|].
  rewrite (H a (or_introl eq_refl)). apply IH. intros b Hb. apply H. now right.
Qed.

Lemma str_eq_value_inj (x : option string) (v w : Value) :
  str_eq_value x v = true -> str_eq_value x w = true -> v = w.
Proof.
  destruct x as [s|], v as [t|n], w as [u|m]; simpl; try discriminate.
  intros H1 H2. apply String.eqb_eq in H1, H2. congruence.
Qed.

Lemma int_eq_value_inj (x : option Z) (v w : Value) :
  int_eq_value x v = true -> int_eq_value x w = true -> v = w.
Proof.
  destruct x as [s|], v as [t|n], w as [u|m]; simpl; try discriminate.
  intros H1 H2. apply Z.eqb_eq in H1, H2. congruence.
Qed.

Lemma column_mask_inj (column : string) (mask : Value -> Row -> bool)
  (v w : Value) (r : Row) :
  column_mask column = Some mask ->
  mask v r = true -> mask w r = true -> v = w.
Proof.
  unfold column_mask.
  repeat (match goal with
          | |- context [String.eqb ?a ?b] => destruct (String.eqb a b)
          end;
          [intros E; injection E as <-;
           first [apply str_eq_value_inj | apply int_eq_value_inj]|]).
  discriminate.
Qed.

Lemma column_mask_known (column : string) :
  In column ["borough"; "year"; "month"; "day"; "hour"] ->
  exists mask, column_mask column = Some mask.
Proof.
  simpl. intros [<-|[<-|[<-|[<-|[<-|[]]]]]]; eexists; reflexivity.
Qed.

(** X1. Filtering a second time by the same column and value changes
    nothing; for an unknown column both sides fail. *)
Theorem df_filter_by_idempotent (df : DataFrame) (column : string)
  (value : Value) :
  (d <- df_filter_by df column value ;; df_filter_by d column value) =
  df_filter_by df column value.
Proof.
  rewrite (df_filter_by_mask df).
  destruct (column_mask column) as [mask|] eqn:Hm; simpl; [|reflexivity].
  rewrite df_filter_by_mask, Hm. simpl. now rewrite filter_idempotent.
Qed.

(** X2. Two different values of one recognised column select disjoint
    records: filtering by the first and then by the second leaves the empty
    frame. *)
Theorem df_filter_by_distinct_values (df : DataFrame) (column : string)
  (v w : Value) :
  In column ["borough"; "year"; "month"; "day"; "hour"] ->
  v <> w ->
  (d <- df_filter_by df column v ;; df_filter_by d column w) = Some [].
Proof.
  intros Hc Hvw. destruct (column_mask_known column Hc) as [mask Hm].
  rewrite (df_filter_by_mask df), Hm. simpl.
  rewrite df_filter_by_mask, Hm. simpl. f_equal.
  apply filter_none. intros r Hr. apply filter_In in Hr as [_ Hv].
  destruct (mask w r) eqn:Hw; [|reflexivity].
  exfalso. apply Hvw. exact (column_mask_inj column mask v w r Hm Hv Hw).
Qed.

Lemma df_filter_by_distinct_values_witness :
  (In "year" ["borough"; "year"; "month"; "day"; "hour"] /\ Int 2013 <> Int 2014)
  /\ (d <- df_filter_by Sample.three_rows "year" (Int 2013) ;;
      df_filter_by d "year" (Int 2014)) = Some [].
Proof.
  assert (Hc : In "year" ["borough"; "year"; "month"; "day"; "hour"])
    by (simpl; tauto).
  assert (Hv : Int 2013 <> Int 2014) by discriminate.
  split; [split; assumption|].
  exact (df_filter_by_distinct_values Sample.three_rows "year" (Int 2013)
           (Int 2014) Hc Hv).
Defined.

(** X3. The inclusive year range with both ends equal is the year filter. *)
Theorem df_between_years_single (df : DataFrame) (y : Z) :
  df_filter_by df "year" (Int y) = Some (df_between_years df y y).
Proof.
  rewrite df_filter_by_year. unfold df_between_years. apply f_equal.
  apply filter_ext. intros r. destruct (dt_year r) as [n|]; simpl; [|reflexivity].
  destruct (Z.eqb_spec n y), (Z.leb_spec y n), (Z.leb_spec n y);
    simpl; try reflexivity; lia.
Qed.

(** X4. A year range whose upper end is below its lower end selects
    nothing. *)
Theorem df_between_years_empty (df : DataFrame) (y1 y2 : Z) :
  y2 < y1 -> df_between_years df y1 y2 = [].
Proof.
  intros H. unfold df_between_years. apply filter_none. intros r _.
  destruct (dt_year r) as [n|]; [|reflexivity].
  destruct (Z.leb_spec y1 n), (Z.leb_spec n y2); simpl; try reflexivity; lia.
Qed.

Lemma df_between_years_empty_witness :
  2014 < 2015 /\ df_between_years Sample.three_rows 2015 2014 = [].
Proof.
  assert (H : 2014 < 2015) by lia.
  split; [exact H|exact (df_between_years_empty Sample.three_rows 2015 2014 H)].
Defined.

Lemma py_range_cons (lo hi : Z) :
  lo < hi -> py_range lo hi = lo :: py_range (lo + 1) hi.
Proof.
  intros H. unfold py_range.
  replace (Z.to_nat (hi - lo)) with (S (Z.to_nat (hi - (lo + 1)))) by lia.
  cbn [seq map]. f_equal; [lia|].
  rewrite <- seq_shift, map_map. apply map_ext. intros i. lia.
Qed.

Lemma py_range_nil (lo hi : Z) : hi <= lo -> py_range lo hi = [].
Proof.
  intros H. unfold py_range. replace (Z.to_nat (hi - lo)) with 0%nat by lia.
  reflexivity.
Qed.

(** A year occurs once in a range that contains it and never otherwise. *)
Lemma matches_year_range (lo hi : Z) (r : Row) :
  matches (map Int (py_range lo hi))
          (fun v r => int_eq_value (dt_year r) v) r =
  match dt_year r with
  | Some n => if (lo <=? n) && (n <? hi) then 1 else 0
  | None => 0
  end.
Proof.
  unfold matches.
  remember (Z.to_nat (hi - lo)) as k eqn:Hk. revert lo Hk.
  induction k as [|k IH]; intros lo Hk.
  - rewrite py_range_nil by lia. simpl.
    destruct (dt_year r) as [n|]; [|reflexivity].
    destruct (Z.leb_spec lo n), (Z.ltb_spec n hi); simpl; try reflexivity; lia.
  - rewrite py_range_cons by lia. cbn [map filter].
    specialize (IH (lo + 1) ltac:(lia)).
    destruct (dt_year r) as [n|]; cbn [int_eq_value] in *.
    + destruct (Z.eqb_spec n lo) as [->|Hne].
      * cbn [List.length]. rewrite Nat2Z.inj_succ, IH.
        destruct (Z.leb_spec (lo + 1) lo), (Z.leb_spec lo lo),
          (Z.ltb_spec lo hi); simpl; try reflexivity; lia.
      * rewrite IH.
        destruct (Z.leb_spec (lo + 1) n), (Z.leb_spec lo n),
          (Z.ltb_spec n hi); simpl; try reflexivity; lia.
    + exact IH.
Qed.

Lemma shape0_between_years (df : DataFrame) (y1 y2 : Z) :
  shape0 (df_between_years df y1 y2) =
  total (fun y => shape0 (filter (in_year y) df)) (py_range y1 (y2 + 1)).
Proof.
  transitivity
    (total (fun v => shape0 (filter ((fun v r => int_eq_value (dt_year r) v) v) df))
           (map Int (py_range y1 (y2 + 1)))).
  - rewrite total_shape0_matches. unfold df_between_years.
    rewrite shape0_filter_total. apply total_ext_in. intros r _.
    rewrite matches_year_range. destruct (dt_year r) as [n|]; [|reflexivity].
    destruct (Z.leb_spec y1 n), (Z.leb_spec n y2), (Z.ltb_spec n (y2 + 1));
      simpl; try reflexivity; lia.
  - unfold total. rewrite map_map. reflexivity.
Qed.

(** X5. The records of an inclusive year range are exactly the records of
    its single years: the size of [df_between_years(df, y1, y2)] is the sum
    of the sizes of the year filters for [y1], ..., [y2].  For 2013 to 2020
    these are the years of [YEARS], and the range never holds more records
    than the frame. *)
Theorem df_between_years_partition (df : DataFrame) (y1 y2 : Z) :
  shape0 (df_between_years df y1 y2) =
  total (fun y => shape0 (filter (in_year y) df)) (py_range y1 (y2 + 1))
  /\ shape0 (df_between_years df 2013 2020) =
     total (fun y => shape0 (filter (in_year y) df)) YEARS
  /\ shape0 (df_between_years df y1 y2) <= shape0 df.
Proof.
  split; [apply shape0_between_years|].
  split.
  - rewrite shape0_between_years. reflexivity.
  - unfold shape0, df_between_years. apply Nat2Z.inj_le, filter_length_le.
Qed.

(* ================================================================== *)
(** * The coordinate box                                               *)
(* ================================================================== *)

(** X6. [df_between_coords] never selects a record with a missing (NaN)
    latitude or longitude, whatever the two corners are. *)
Theorem df_between_coords_no_missing (df : DataFrame) (coord1 coord2 : float * float) :
  Forall (fun r => PrimFloat.is_nan (LATITUDE r) = false
                   /\ PrimFloat.is_nan (LONGITUDE r) = false)
         (df_between_coords df coord1 coord2).
Proof.
  destruct coord1 as [min_lat min_long], coord2 as [max_lat max_long].
  unfold df_between_coords. apply Forall_forall. intros r Hr.
  apply filter_In in Hr as [_ H].
  apply andb_true_iff in H as [Hlat Hlong].
  apply andb_true_iff in Hlat as [Hlat _].
  apply andb_true_iff in Hlong as [Hlong _].
  split; eapply ltb_not_nan_r; eassumption.
Qed.

(** X7. A box whose lower corner lies north of the equator never selects a
    record with latitude 0, so the (0, 0) sentinel never passes it. *)
Theorem df_between_coords_no_sentinel (df : DataFrame)
  (coord1 coord2 : float * float) :
  PrimFloat.ltb 0 (fst coord1) = true ->
  Forall (fun r => PrimFloat.eqb (LATITUDE r) 0 = false)
         (df_between_coords df coord1 coord2).
Proof.
  destruct coord1 as [min_lat min_long], coord2 as [max_lat max_long].
  simpl fst. intros Hpos.
  unfold df_between_coords. apply Forall_forall. intros r Hr.
  apply filter_In in Hr as [_ H].
  apply andb_true_iff in H as [Hlat _].
  apply andb_true_iff in Hlat as [Hlat _].
  exact (ltb_positive_nonzero _ _ Hpos Hlat).
Qed.

Lemma df_between_coords_no_sentinel_witness :
  PrimFloat.ltb 0 (fst (MIN_LATITUDE, MIN_LONGITUDE)) = true
  /\ Forall (fun r => PrimFloat.eqb (LATITUDE r) 0 = false)
       (df_between_coords Sample.three_rows (MIN_LATITUDE, MIN_LONGITUDE)
          (MAX_LATITUDE, MAX_LONGITUDE)).
Proof.
  assert (H : PrimFloat.ltb 0 (fst (MIN_LATITUDE, MIN_LONGITUDE)) = true)
    by reflexivity.
  split; [exact H|].
  exact (df_between_coords_no_sentinel Sample.three_rows
           (MIN_LATITUDE, MIN_LONGITUDE) (MAX_LATITUDE, MAX_LONGITUDE) H).
Defined.

(* ================================================================== *)
(** * More on the cleaning pass                                        *)
(* ================================================================== *)

Lemma map_fixed {A : Type} (f : A -> A) (l : list A) :
  (forall a, In a l -> f a = a) -> map f l = l.
Proof.
  induction l as [|a l IH]; simpl; intros H; [reflexivity|].
  rewrite (H a (or_introl eq_refl)), IH; [reflexivity|].
  intros b Hb. apply H. now right.
Qed.

Lemma filter_all {A : Type} (p : A -> bool) (l : list A) :
  (forall a, In a l -> p a = true) -> filter p l = l.
Proof.
  induction l as [|a l IH]; simpl; intros H; [reflexivity|].
  rewrite (H a (or_introl eq_refl)), IH; [reflexivity|].
  intros b Hb. apply H. now right.
Qed.

Lemma fillna0_not_nan (x : float) : PrimFloat.is_nan (fillna0 x) = false.
Proof.
  unfold fillna0. destruct (PrimFloat.is_nan x) eqn:E; [reflexivity|exact E].
Qed.

Lemma fillna0_fixed (x : float) : PrimFloat.is_nan x = false -> fillna0 x = x.
Proof. unfold fillna0. now intros ->. Qed.

Lemma set_lat_long_same (r : Row) : set_lat_long r (LATITUDE r) (LONGITUDE r) = r.
Proof. destruct r; reflexivity. Qed.

(** A record is clean when every step of the cleaning pass leaves it in
    place. *)
Lemma clean_rows_fixed (df : DataFrame) :
  (forall r, In r df ->
     PrimFloat.is_nan (LATITUDE r) = false
     /\ PrimFloat.is_nan (LONGITUDE r) = false
     /\ borough_or_longitude_mask r = true
     /\ PrimFloat.eqb (LONGITUDE r) QUEENSBORO_WRONG_LONGITUDE = false
     /\ (within_lat r && within_long r) || no_lat_long r = true) ->
  fst (read_data df) = df.
Proof.
  intros H. rewrite read_data_cleaned.
  assert (E1 : fill_missing_coordinates df = df).
  { apply map_fixed. intros r Hr. destruct (H r Hr) as (Hlat & Hlon & _).
    rewrite !fillna0_fixed by assumption. apply set_lat_long_same. }
  rewrite E1.
  assert (E2 : keep_labelled_or_located df = df).
  { apply filter_all. intros r Hr. now destruct (H r Hr) as (_ & _ & Hm & _). }
  rewrite E2.
  assert (E3 : fix_queensboro df = df).
  { apply map_fixed. intros r Hr. destruct (H r Hr) as (_ & _ & _ & Hq & _).
    unfold fix_queensboro_row. now rewrite Hq. }
  rewrite E3.
  apply filter_all. intros r Hr. now destruct (H r Hr) as (_ & _ & _ & _ & Hb).
Qed.

Lemma read_data_rows_clean (df : DataFrame) (r : Row) :
  In r (fst (read_data df)) ->
  PrimFloat.is_nan (LATITUDE r) = false
  /\ PrimFloat.is_nan (LONGITUDE r) = false
  /\ borough_or_longitude_mask r = true
  /\ PrimFloat.eqb (LONGITUDE r) QUEENSBORO_WRONG_LONGITUDE = false
  /\ (within_lat r && within_long r) || no_lat_long r = true.
Proof.
  rewrite read_data_cleaned. intros Hin.
  unfold keep_within_nyc in Hin. apply filter_In in Hin as [Hin Hbox].
  unfold fix_queensboro in Hin. apply in_map_iff in Hin as [r1 [<- Hin]].
  unfold keep_labelled_or_located in Hin. apply filter_In in Hin as [Hin Hmask].
  unfold fill_missing_coordinates in Hin. apply in_map_iff in Hin as [r0 [<- Hin]].
  pose proof (fix_queensboro_row_labelled_or_located _ Hmask) as Hinv.
  revert Hbox Hinv. rewrite borough_or_longitude_mask_spec.
  unfold fix_queensboro_row.
  set (r1 := set_lat_long r0 (fillna0 (LATITUDE r0)) (fillna0 (LONGITUDE r0))).
  assert (Hlat : PrimFloat.is_nan (LATITUDE r1) = false) by apply fillna0_not_nan.
  assert (Hlon : PrimFloat.is_nan (LONGITUDE r1) = false) by apply fillna0_not_nan.
  destruct (PrimFloat.eqb (LONGITUDE r1) QUEENSBORO_WRONG_LONGITUDE) eqn:Hq;
    intros Hbox Hinv.
  - repeat split; try assumption; try reflexivity.
  - repeat split; try assumption.
    destruct Hinv as [-> | ->]; [reflexivity|apply orb_true_r].
Qed.

(** X8. Cleaning is idempotent: running the cleaning pass of [read_data] on
    a cleaned set returns it unchanged, as when the cleaned file is loaded
    and cleaned again. *)
Theorem read_data_idempotent (df : DataFrame) :
  fst (read_data (fst (read_data df))) = fst (read_data df).
Proof.
  apply clean_rows_fixed. intros r Hr. exact (read_data_rows_clean df r Hr).
Qed.

(** X9. A record with a borough label and a missing or zero latitude is
    never thrown out: the cleaned set holds it with its missing coordinates
    filled with 0. *)
Theorem read_data_keeps_labelled_without_latitude (df : DataFrame) (r : Row) :
  In r df ->
  notnull (BOROUGH r) = true ->
  PrimFloat.eqb (fillna0 (LATITUDE r)) 0 = true ->
  In (fix_queensboro_row
        (set_lat_long r (fillna0 (LATITUDE r)) (fillna0 (LONGITUDE r))))
     (fst (read_data df)).
Proof.
  intros Hin Hb Hlat. rewrite read_data_cleaned.
  set (r1 := set_lat_long r (fillna0 (LATITUDE r)) (fillna0 (LONGITUDE r))).
  apply filter_In. split.
  - apply in_map. apply filter_In. split.
    + unfold fill_missing_coordinates. exact (in_map _ _ _ Hin).
    + rewrite borough_or_longitude_mask_spec.
      change (BOROUGH r1) with (BOROUGH r). now rewrite Hb.
  - apply orb_true_iff. right. unfold no_lat_long.
    assert (E : LATITUDE (fix_queensboro_row r1) = fillna0 (LATITUDE r)).
    { unfold fix_queensboro_row.
      destruct (PrimFloat.eqb (LONGITUDE r1) QUEENSBORO_WRONG_LONGITUDE);
        reflexivity. }
    rewrite E, Hlat. reflexivity.
Qed.

Lemma read_data_keeps_labelled_without_latitude_witness :
  (In Sample.queens_without_latitude [Sample.queens_without_latitude]
   /\ notnull (BOROUGH Sample.queens_without_latitude) = true
   /\ PrimFloat.eqb (fillna0 (LATITUDE Sample.queens_without_latitude)) 0 = true)
  /\ In (fix_queensboro_row
           (set_lat_long Sample.queens_without_latitude
              (fillna0 (LATITUDE Sample.queens_without_latitude))
              (fillna0 (LONGITUDE Sample.queens_without_latitude))))
        (fst (read_data [Sample.queens_without_latitude])).
Proof.
  assert (H1 : In Sample.queens_without_latitude [Sample.queens_without_latitude])
    by (left; reflexivity).
  assert (H2 : notnull (BOROUGH Sample.queens_without_latitude) = true)
    by reflexivity.
  assert (H3 : PrimFloat.eqb (fillna0 (LATITUDE Sample.queens_without_latitude)) 0
               = true) by reflexivity.
  split; [repeat split; assumption|].
  exact (read_data_keeps_labelled_without_latitude
           [Sample.queens_without_latitude] Sample.queens_without_latitude
           H1 H2 H3).
Defined.

Lemma queensboro_outside_box (x : float) :
  PrimFloat.eqb x QUEENSBORO_WRONG_LONGITUDE = true ->
  PrimFloat.ltb MIN_LONGITUDE x = false.
Proof.
  intros H.
  assert (Hf : exists b m e,
             Prim2SF QUEENSBORO_WRONG_LONGITUDE = S754_finite b m e)
    by (vm_compute; eauto).
  destruct Hf as (b & m & e & Hf).
  pose proof (eqb_finite_same x _ b m e Hf H) as E.
  rewrite FloatAxioms.ltb_spec, E, <- FloatAxioms.ltb_spec. reflexivity.
Qed.

(** X10. Every record strictly inside the city box is kept unchanged by
    cleaning, whether or not it carries a borough label. *)
Theorem read_data_keeps_rows_in_box (df : DataFrame) (r : Row) :
  In r df ->
  within_lat r && within_long r = true ->
  In r (fst (read_data df)).
Proof.
  intros Hin Hbox. rewrite read_data_cleaned.
  pose proof Hbox as Hbox'.
  apply andb_true_iff in Hbox' as [Hlat Hlong].
  apply andb_true_iff in Hlat as [Hlat _].
  apply andb_true_iff in Hlong as [Hlong1 Hlong2].
  assert (Hr : set_lat_long r (fillna0 (LATITUDE r)) (fillna0 (LONGITUDE r)) = r).
  { rewrite !fillna0_fixed by (eapply ltb_not_nan_r; eassumption).
    apply set_lat_long_same. }
  assert (Hq : fix_queensboro_row r = r).
  { unfold fix_queensboro_row.
    destruct (PrimFloat.eqb (LONGITUDE r) QUEENSBORO_WRONG_LONGITUDE) eqn:E;
      [|reflexivity].
    apply queensboro_outside_box in E. congruence. }
  apply filter_In. split; [|now rewrite Hbox].
  rewrite <- Hq. apply in_map. apply filter_In. split.
  - rewrite <- Hr. unfold fill_missing_coordinates. exact (in_map _ _ _ Hin).
  - rewrite borough_or_longitude_mask_spec.
    rewrite (ltb_negative_nonzero MAX_LONGITUDE (LONGITUDE r) eq_refl Hlong2).
    apply orb_true_r.
Qed.

Lemma read_data_keeps_rows_in_box_witness :
  (In Sample.unlabelled_2013 [Sample.unknown_place; Sample.unlabelled_2013]
   /\ within_lat Sample.unlabelled_2013 && within_long Sample.unlabelled_2013
      = true)
  /\ In Sample.unlabelled_2013
        (fst (read_data [Sample.unknown_place; Sample.unlabelled_2013])).
Proof.
  assert (H1 : In Sample.unlabelled_2013
                  [Sample.unknown_place; Sample.unlabelled_2013])
    by (right; left; reflexivity).
  assert (H2 : within_lat Sample.unlabelled_2013
               && within_long Sample.unlabelled_2013 = true) by reflexivity.
  split; [split; assumption|].
  exact (read_data_keeps_rows_in_box _ _ H1 H2).
Defined.

(** X11. The per-year frames returned by [read_data] are keyed by 2013 to
    2020 in order, each holds the cleaned records of its year, and together
    they hold exactly the cleaned records dated 2013 to 2020: a cleaned
    record without a timestamp or of another year is in no year frame. *)
Theorem read_data_year_frames (df : DataFrame) :
  let cleaned_df := fst (read_data df) in
  let year_df_dict := snd (read_data df) in
  map fst year_df_dict = [2013; 2014; 2015; 2016; 2017; 2018; 2019; 2020]
  /\ Forall (fun entry =>
               snd entry = Some (filter (in_year (fst entry)) cleaned_df))
            year_df_dict
  /\ total (fun entry => match snd entry with
                         | Some year_df => shape0 year_df
                         | None => 0
                         end) year_df_dict
     = shape0 (df_between_years cleaned_df 2013 2020)
  /\ shape0 (df_between_years cleaned_df 2013 2020) <= shape0 cleaned_df.
Proof.
  cbv zeta. split; [reflexivity|]. split.
  - unfold read_data. cbn [snd]. apply Forall_map. apply Forall_forall.
    intros year _. reflexivity.
  - split.
    + rewrite shape0_between_years. unfold read_data. cbn [snd fst].
      unfold total. rewrite map_map. reflexivity.
    + unfold shape0, df_between_years. apply Nat2Z.inj_le, filter_length_le.
Qed.

(* ================================================================== *)
(** * More on the count tables                                         *)
(* ================================================================== *)

Lemma column_mask_unknown (column : string) :
  ~ In column ["borough"; "year"; "month"; "day"; "hour"] ->
  column_mask column = None.
Proof.
  intros Hnot. unfold column_mask.
  repeat match goal with
         | |- context [String.eqb ?a ?b] =>
             destruct (String.eqb_spec a b) as [->|_];
             [exfalso; apply Hnot; simpl; tauto|]
         end.
  reflexivity.
Qed.

(** X12. With a column name that [df_filter_by] does not know,
    [query_accidents_by_value_and_year] raises as soon as there is one
    category to count, and returns the empty table when there is none. *)
Theorem query_accidents_by_value_and_year_unknown_column (df : DataFrame)
  (column : string) (column_dict : ColumnDict) :
  ~ In column ["borough"; "year"; "month"; "day"; "hour"] ->
  query_accidents_by_value_and_year df column column_dict =
  match column_items column_dict with
  | [] => Some []
  | _ :: _ => None
  end.
Proof.
  intros Hnot. apply column_mask_unknown in Hnot.
  unfold query_accidents_by_value_and_year.
  destruct (column_items column_dict) as [|[v k] items].
  - reflexivity.
  - rewrite YEARS_eq. cbn [for_each]. rewrite df_filter_by_year, bind_some.
    cbn [for_each]. rewrite df_filter_by_mask, Hnot. reflexivity.
Qed.

Lemma query_accidents_by_value_and_year_unknown_column_witness :
  ~ In "weekday" ["borough"; "year"; "month"; "day"; "hour"]
  /\ query_accidents_by_value_and_year Sample.three_rows "weekday"
       (AsIterable DAYS) = None
  /\ query_accidents_by_value_and_year Sample.three_rows "weekday"
       (AsIterable []) = Some [].
Proof.
  assert (H : ~ In "weekday" ["borough"; "year"; "month"; "day"; "hour"]).
  { simpl. intros [E|[E|[E|[E|[E|[]]]]]]; discriminate E. }
  split; [exact H|]. split.
  - exact (query_accidents_by_value_and_year_unknown_column Sample.three_rows
             "weekday" (AsIterable DAYS) H).
  - exact (query_accidents_by_value_and_year_unknown_column Sample.three_rows
             "weekday" (AsIterable []) H).
Defined.

Lemma query_accidents_by_value_and_year_fold (df : DataFrame)
  (column : string) (column_dict : ColumnDict) (mask : Value -> Row -> bool) :
  column_mask column = Some mask ->
  query_accidents_by_value_and_year df column column_dict =
  Some (fold_left
          (fun c y => append_all (column_items column_dict)
                        (fun it => bucket_count df (mask (fst it)) y) c)
          YEARS []).
Proof.
  intros Hmask. unfold query_accidents_by_value_and_year.
  apply for_each_total. intros counts year.
  rewrite df_filter_by_year, bind_some.
  apply for_each_total. intros c [v k].
  rewrite df_filter_by_mask, Hmask. reflexivity.
Qed.

Lemma entries_append_to {A : Type} (counts : Counts A) (k : Key) (x : A) :
  entries (append_to counts k x) = S (entries counts).
Proof.
  unfold entries. induction counts as [|[k' l] rest IH]; simpl; [reflexivity|].
  destruct (Key_eqb k' k); simpl.
  - rewrite length_app. simpl. lia.
  - rewrite IH. lia.
Qed.

Lemma entries_append_all {A : Type} (items : list (Value * Key))
  (f : Value * Key -> A) (counts : Counts A) :
  entries (append_all items f counts) = (List.length items + entries counts)%nat.
Proof.
  unfold append_all. revert counts.
  induction items as [|it items IH]; intros counts; simpl; [reflexivity|].
  rewrite IH, entries_append_to. lia.
Qed.

Lemma keys_append_to {A : Type} (counts : Counts A) (k : Key) (x : A) :
  incl (map fst (append_to counts k x)) (k :: map fst counts).
Proof.
  induction counts as [|[k' l] rest IH]; simpl.
  - apply incl_refl.
  - destruct (Key_eqb k' k); simpl.
    + apply incl_tl, incl_refl.
    + intros a [<-|Ha]; [right; left; reflexivity|].
      destruct (IH a Ha) as [<-|Hin]; [left; reflexivity|right; right; exact Hin].
Qed.

Lemma keys_append_all {A : Type} (items : list (Value * Key))
  (f : Value * Key -> A) (counts : Counts A) :
  incl (map fst (append_all items f counts)) (map snd items ++ map fst counts).
Proof.
  unfold append_all. revert counts.
  induction items as [|it items IH]; intros counts; simpl; [apply incl_refl|].
  intros a Ha. apply IH in Ha. apply in_app_or in Ha as [Ha|Ha].
  - right. apply in_or_app. now left.
  - apply keys_append_to in Ha. destruct Ha as [<-|Ha]; [now left|].
    right. apply in_or_app. now right.
Qed.

(** X13. For a recognised column the table always comes back, whatever the
    categories are (repeated keys included): it holds eight counts per
    category passed in, and every key of the table is the key of one of
    those categories. *)
Theorem query_accidents_by_value_and_year_entries (df : DataFrame)
  (column : string) (column_dict : ColumnDict) :
  In column ["borough"; "year"; "month"; "day"; "hour"] ->
  exists table,
    query_accidents_by_value_and_year df column column_dict = Some table
    /\ entries table = (8 * List.length (column_items column_dict))%nat
    /\ incl (map fst table) (map snd (column_items column_dict)).
Proof.
  intros Hc. destruct (column_mask_known column Hc) as [mask Hm].
  rewrite (query_accidents_by_value_and_year_fold df column column_dict mask Hm).
  eexists. split; [reflexivity|].
  set (step := fun c y => append_all (column_items column_dict)
                 (fun it => bucket_count df (mask (fst it)) y) c).
  assert (H : forall years counts,
            entries (fold_left step years counts) =
            (List.length years * List.length (column_items column_dict)
             + entries counts)%nat
            /\ incl (map fst (fold_left step years counts))
                    (map snd (column_items column_dict) ++ map fst counts)).
  { induction years as [|y years IH]; intros counts; simpl.
    - split; [reflexivity|]. apply incl_appr, incl_refl.
    - destruct (IH (step counts y)) as [He Hk]. split.
      + rewrite He. unfold step. rewrite entries_append_all. lia.
      + intros a Ha. apply Hk in Ha. apply in_app_or in Ha as [Ha|Ha].
        * apply in_or_app. now left.
        * unfold step in Ha. exact (keys_append_all _ _ _ a Ha). }
  destruct (H YEARS []) as [He Hk]. split.
  - rewrite He, YEARS_eq. unfold entries. cbn [List.length map fold_right]. lia.
  - intros a Ha. apply Hk in Ha. simpl in Ha. now rewrite app_nil_r in Ha.
Qed.

Lemma query_accidents_by_value_and_year_entries_witness :
  In "borough" ["borough"; "year"; "month"; "day"; "hour"]
  /\ exists table,
       query_accidents_by_value_and_year Sample.three_rows "borough"
         (AsIterable [Str "QUEENS"; Str "QUEENS"]) = Some table
       /\ entries table = (8 * 2)%nat
       /\ incl (map fst table) [KVal (Str "QUEENS"); KVal (Str "QUEENS")].
Proof.
  assert (H : In "borough" ["borough"; "year"; "month"; "day"; "hour"])
    by (left; reflexivity).
  split; [exact H|].
  exact (query_accidents_by_value_and_year_entries Sample.three_rows "borough"
           (AsIterable [Str "QUEENS"; Str "QUEENS"]) H).
Defined.

(* ================================================================== *)
(** * Nested count tables                                              *)
(* ================================================================== *)

(** Splitting a subset by a dimension that every record has exactly once
    and adding the parts up gives the subset back. *)
Lemma total_over_positions (positions : list Value)
  (pmask : Value -> Row -> bool) (cmask : Row -> bool) (l : DataFrame) :
  (forall r, In r l -> matches positions pmask r = 1) ->
  total (fun p => shape0 (filter cmask (filter (pmask p) l))) positions =
  shape0 (filter cmask l).
Proof.
  intros Hone.
  transitivity (total (fun p => shape0 (filter (pmask p) (filter cmask l)))
                      positions).
  - apply total_ext_in. intros p _. now rewrite filter_filter_comm.
  - rewrite total_shape0_matches, shape0_total. apply total_ext_in.
    intros r Hr. apply filter_In in Hr as [Hr _]. exact (Hone r Hr).
Qed.

Lemma total_inner_first (positions : list Value)
  (pmask : Value -> Row -> bool) (cmask : Row -> bool) (l : DataFrame) :
  (forall r, In r l -> matches positions pmask r = 1) ->
  total (fun p => shape0 (filter (pmask p) (filter cmask l))) positions =
  shape0 (filter cmask l).
Proof.
  intros Hone. rewrite <- (total_over_positions positions pmask cmask l Hone).
  apply total_ext_in. intros p _. now rewrite filter_filter_comm.
Qed.

Lemma timestamp_in_year (df : DataFrame) (year : Z) (r : Row) :
  In r (filter (in_year year) df) -> exists ns, CRASH_TIME r = Some ns.
Proof.
  intros Hr. apply filter_In in Hr as [_ Hr]. exact (in_year_timestamp _ _ Hr).
Qed.

Lemma nested_table_sums (cats positions : list Value)
  (count : Z -> Value -> Value -> Z) (flat : Z -> Value -> Z) :
  (forall year c, total (fun p => count year c p) positions = flat year c) ->
  map (fun entry => map (fun e => fold_right Z.add 0 (snd e)) (snd entry))
      (nested_table cats positions count) =
  map (fun year => map (fun c => flat year c) cats) YEARS.
Proof.
  intros H. unfold nested_table. rewrite map_map. apply map_ext. intros year.
  cbn [snd]. rewrite map_map. apply map_ext. intros c. cbn [snd]. apply H.
Qed.

(** X14. [query_accidents_by_weekday_and_time_and_year] returns one entry
    per year from 2013 to 2020, inside it one entry per weekday from Sunday,
    and for each weekday the 24 counts of the hours 0 to 23.  The counts of
    a weekday add up to the number of that year's records on that weekday,
    the entry of the flat weekday table. *)
Theorem query_accidents_by_weekday_and_time_and_year_table (df : DataFrame) :
  let count year day hour :=
    shape0 (filter (day_is day)
              (filter (hour_is hour) (filter (in_year year) df))) in
  query_accidents_by_weekday_and_time_and_year df =
  Some (nested_table DAYS (map Int HOURS) count)
  /\ map (fun entry => map (fun e => fold_right Z.add 0 (snd e)) (snd entry))
         (nested_table DAYS (map Int HOURS) count) =
     map (fun year => map (fun day => bucket_count df (day_is day) year) DAYS)
         YEARS.
Proof.
  cbv zeta. split; [reflexivity|].
  apply nested_table_sums. intros year day. unfold bucket_count.
  apply total_over_positions. intros r Hr.
  destruct (timestamp_in_year df year r Hr) as [ns Hns].
  exact (matches_hour r ns Hns).
Qed.

(** X15. [query_accidents_by_borough_and_month_and_year] returns one entry
    per year from 2013 to 2020, inside it one entry per borough in declared
    order, keyed by the borough name, with the 12 counts of January to
    December.  The counts of a borough add up to the number of that year's
    records in that borough, the entry of the flat borough table. *)
Theorem query_accidents_by_borough_and_month_and_year_table (df : DataFrame) :
  let count year borough month :=
    shape0 (filter (month_is month)
              (filter (borough_is borough) (filter (in_year year) df))) in
  query_accidents_by_borough_and_month_and_year df =
  Some (nested_table (map fst BOROUGH_COORDS) (map fst MONTHS) count)
  /\ map (fun entry => map (fun e => fold_right Z.add 0 (snd e)) (snd entry))
         (nested_table (map fst BOROUGH_COORDS) (map fst MONTHS) count) =
     map (fun year =>
            map (fun borough => bucket_count df (borough_is borough) year)
                (map fst BOROUGH_COORDS))
         YEARS.
Proof.
  cbv zeta. split; [reflexivity|].
  apply nested_table_sums. intros year borough. unfold bucket_count.
  apply total_inner_first. intros r Hr.
  destruct (timestamp_in_year df year r Hr) as [ns Hns].
  exact (matches_month r ns Hns).
Qed.

(** X16. [query_accidents_by_borough_and_day_and_year] returns one entry per
    year, inside it one entry per borough in declared order with the 7
    counts of Sunday to Saturday, and the counts of a borough add up to the
    number of that year's records in that borough. *)
Theorem query_accidents_by_borough_and_day_and_year_table (df : DataFrame) :
  let count year borough day :=
    shape0 (filter (day_is day)
              (filter (borough_is borough) (filter (in_year year) df))) in
  query_accidents_by_borough_and_day_and_year df =
  Some (nested_table (map fst BOROUGH_COORDS) DAYS count)
  /\ map (fun entry => map (fun e => fold_right Z.add 0 (snd e)) (snd entry))
         (nested_table (map fst BOROUGH_COORDS) DAYS count) =
     map (fun year =>
            map (fun borough => bucket_count df (borough_is borough) year)
                (map fst BOROUGH_COORDS))
         YEARS.
Proof.
  cbv zeta. split; [reflexivity|].
  apply nested_table_sums. intros year borough. unfold bucket_count.
  apply total_inner_first. intros r Hr.
  destruct (timestamp_in_year df year r Hr) as [ns Hns].
  exact (matches_day r ns Hns).
Qed.

(** X17. [query_accidents_by_borough_and_hour_and_year] returns one entry
    per year, inside it one entry per borough in declared order with the 24
    counts of the hours 0 to 23, and the counts of a borough add up to the
    number of that year's records in that borough. *)
Theorem query_accidents_by_borough_and_hour_and_year_table (df : DataFrame) :
  let count year borough hour :=
    shape0 (filter (hour_is hour)
              (filter (borough_is borough) (filter (in_year year) df))) in
  query_accidents_by_borough_and_hour_and_year df =
  Some (nested_table (map fst BOROUGH_COORDS) (map Int HOURS) count)
  /\ map (fun entry => map (fun e => fold_right Z.add 0 (snd e)) (snd entry))
         (nested_table (map fst BOROUGH_COORDS) (map Int HOURS) count) =
     map (fun year =>
            map (fun borough => bucket_count df (borough_is borough) year)
                (map fst BOROUGH_COORDS))
         YEARS.
Proof.
  cbv zeta. split; [reflexivity|].
  apply nested_table_sums. intros year borough. unfold bucket_count.
  apply total_inner_first. intros r Hr.
  destruct (timestamp_in_year df year r Hr) as [ns Hns].
  exact (matches_hour r ns Hns).
Qed.

(* ================================================================== *)
(** * Deaths by month                                                  *)
(* ================================================================== *)

Lemma column_sum_total (xs : list (option Z)) :
  column_sum xs =
  total (fun x => match x with Some n => n | None => 0 end) xs.
Proof.
  unfold column_sum, total.
  assert (H : forall acc,
            fold_left (fun acc x => match x with
                                    | Some n => acc + n
                                    | None => acc
                                    end) xs acc =
            acc + fold_right Z.add 0
                    (map (fun x => match x with Some n => n | None => 0 end) xs)).
  { induction xs as [|x xs IH]; intros acc; simpl; [lia|].
    rewrite IH. destruct x; lia. }
  rewrite H. lia.
Qed.

Lemma total_map {A B : Type} (g : B -> Z) (f : A -> B) (l : list A) :
  total g (map f l) = total (fun a => g (f a)) l.
Proof. unfold total. now rewrite map_map. Qed.

Lemma total_filter {A : Type} (g : A -> Z) (p : A -> bool) (l : list A) :
  total g (filter p l) = total (fun a => if p a then g a else 0) l.
Proof.
  unfold total. induction l as [|a l IH]; simpl; [reflexivity|].
  destruct (p a); simpl; rewrite IH; lia.
Qed.

Lemma total_scale {A : Type} (g : A -> Z) (c : Z) (l : list A) :
  total (fun a => c * g a) l = c * total g l.
Proof.
  unfold total. induction l as [|a l IH]; simpl; [lia|]. rewrite IH. lia.
Qed.

(** Adding a per-record weight over the per-value subsets counts each
    record's weight once per value it matches. *)
Lemma total_weight_matches (vs : list Value) (mask : Value -> Row -> bool)
  (w : Row -> Z) (l : DataFrame) :
  total (fun v => total w (filter (mask v) l)) vs =
  total (fun r => matches vs mask r * w r) l.
Proof.
  induction vs as [|v vs IH].
  - unfold matches. simpl. unfold total at 1. simpl.
    symmetry. unfold total. induction l; simpl; [reflexivity|lia].
  - change (total (fun v => total w (filter (mask v) l)) (v :: vs))
      with (total w (filter (mask v) l)
            + total (fun v => total w (filter (mask v) l)) vs).
    rewrite IH, total_filter, <- total_plus.
    apply total_ext_in. intros r _. unfold matches. simpl.
    destruct (mask v r); cbn [List.length]; rewrite ?Nat2Z.inj_succ; lia.
Qed.

Lemma column_total_table_of (items : list (Value * Key))
  (f : Z -> Value * Key -> Z) (i : nat) (year : Z) :
  nth_error YEARS i = Some year ->
  column_total (table_of items f YEARS) i = total (f year) items.
Proof.
  intros Hi. unfold column_total, table_of, total. rewrite map_map.
  f_equal. apply map_ext. intros it. cbn [snd].
  apply nth_error_nth. exact (map_nth_error (fun y => f y it) i YEARS Hi).
Qed.

(** X18. [query_accidents_by_deaths_and_month] returns the years 2013 to
    2020 and, keyed by the month names January to December, the deaths of
    each month year by year.  Over the twelve months, the deaths at a year's
    position add up to all the deaths recorded in that year. *)
Theorem query_accidents_by_deaths_and_month_totals (df : DataFrame) :
  exists death_counts death_ratio,
    query_accidents_by_deaths_and_month df =
    Some ([2013; 2014; 2015; 2016; 2017; 2018; 2019; 2020],
          death_counts, death_ratio)
    /\ death_counts =
       table_of MONTHS (fun year it => deaths_in df year (fst it)) YEARS
    /\ map fst death_ratio = map snd MONTHS
    /\ column_totals death_counts =
       map (fun year =>
              column_sum (map NUMBER_OF_PERSONS_KILLED
                            (filter (in_year year) df)))
           YEARS.
Proof.
  rewrite query_accidents_by_deaths_and_month_tables.
  do 2 eexists. split; [reflexivity|]. split; [reflexivity|].
  split; [reflexivity|].
  assert (H : forall i year, nth_error YEARS i = Some year ->
            column_total
              (table_of MONTHS (fun year it => deaths_in df year (fst it)) YEARS)
              i =
            column_sum (map NUMBER_OF_PERSONS_KILLED (filter (in_year year) df))).
  { intros i year Hi. rewrite (column_total_table_of _ _ _ _ Hi).
    set (w := fun r => match NUMBER_OF_PERSONS_KILLED r with
                       | Some n => n
                       | None => 0
                       end).
    transitivity (total (fun v => total w (filter (month_is v)
                                             (filter (in_year year) df)))
                        (map fst MONTHS)).
    - rewrite total_map. apply total_ext_in. intros it _.
      unfold deaths_in. rewrite column_sum_total, total_map. reflexivity.
    - rewrite total_weight_matches, column_sum_total, total_map.
      apply total_ext_in. intros r Hr.
      destruct (timestamp_in_year df year r Hr) as [ns Hns].
      rewrite (matches_month r ns Hns). unfold w. lia. }
  unfold column_totals. rewrite YEARS_eq in *. cbn [seq map].
  rewrite (H 0%nat 2013 eq_refl), (H 1%nat 2014 eq_refl),
    (H 2%nat 2015 eq_refl), (H 3%nat 2016 eq_refl), (H 4%nat 2017 eq_refl),
    (H 5%nat 2018 eq_refl), (H 6%nat 2019 eq_refl), (H 7%nat 2020 eq_refl).
  reflexivity.
Qed.

(* ================================================================== *)
(** * Heat map requests                                                *)
(* ================================================================== *)

Lemma for_each_fails {A S : Type} (xs : list A) (body : S -> A -> option S)
  (x : A) :
  In x xs -> (forall s, body s x = None) ->
  forall acc, for_each xs body acc = None.
Proof.
  intros Hin Hfail. induction xs as [|a xs IH]; [destruct Hin|].
  intros acc. simpl. destruct Hin as [->|Hin].
  - now rewrite Hfail.
  - destruct (body acc a) as [acc'|]; simpl; [apply IH; exact Hin|reflexivity].
Qed.

Lemma for_each_invariant {A S : Type} (P : S -> Prop) (xs : list A)
  (body : S -> A -> option S) :
  (forall s x s', P s -> body s x = Some s' -> P s') ->
  forall acc result, P acc -> for_each xs body acc = Some result -> P result.
Proof.
  intros Hstep. induction xs as [|x xs IH]; intros acc result Hacc; simpl.
  - intros E. injection E as <-. exact Hacc.
  - destruct (body acc x) as [acc'|] eqn:E; simpl; [|discriminate].
    apply IH. exact (Hstep _ _ _ Hacc E).
Qed.

Lemma df_between_coords_rows (df : DataFrame) (c1 c2 : float * float) :
  Forall (fun r => In r df
                   /\ PrimFloat.is_nan (LATITUDE r) = false
                   /\ PrimFloat.is_nan (LONGITUDE r) = false
                   /\ (PrimFloat.ltb 0 (fst c1) = true ->
                       PrimFloat.eqb (LATITUDE r) 0 = false))
         (df_between_coords df c1 c2).
Proof.
  destruct c1 as [min_lat min_long], c2 as [max_lat max_long].
  unfold df_between_coords. apply Forall_forall. intros r Hr.
  apply filter_In in Hr as [Hin H].
  apply andb_true_iff in H as [Hlat Hlong].
  apply andb_true_iff in Hlat as [Hlat _].
  apply andb_true_iff in Hlong as [Hlong _].
  split; [exact Hin|].
  split; [exact (ltb_not_nan_r _ _ Hlat)|].
  split; [exact (ltb_not_nan_r _ _ Hlong)|].
  cbn [fst]. intros Hpos. exact (ltb_positive_nonzero _ _ Hpos Hlat).
Qed.

Lemma heat_map_of_year (year_df_dict : list (Z * option DataFrame))
  (borough : Value) (year : Z) (plot : HeatMap) :
  heat_map_of year_df_dict borough year = Some plot -> snd plot = year.
Proof.
  unfold heat_map_of.
  destruct (dict_get Z.eqb year_df_dict year) as [[year_df|]|];
    cbn [bind]; try discriminate.
  rewrite df_filter_by_borough, bind_some.
  destruct (dict_get Value_eqb BOROUGH_BOUNDS borough) as [[c1 c2]|];
    cbn [bind]; [|discriminate].
  intros E. injection E as <-. reflexivity.
Qed.



(** X20. With a selected year, [visualize_seven] raises when one of the
    boroughs it is given has no entry in [BOROUGH_BOUNDS]. *)
Theorem visualize_seven_unknown_borough
  (year_df_dict : list (Z * option DataFrame)) (boroughs : list Value)
  (borough : Value) (year : Z) :
  In borough boroughs ->
  dict_get Value_eqb BOROUGH_BOUNDS borough = None ->
  visualize_seven year_df_dict boroughs (Some year) = None.
Proof.
  intros Hin Hb. unfold visualize_seven.
  destruct ((2012 <? year) && (year <? 2021)); [|reflexivity].
  rewrite bind_some. apply (for_each_fails _ _ borough Hin). intros plots.
  unfold heat_map_of.
  destruct (dict_get Z.eqb year_df_dict year) as [[year_df|]|];
    cbn [bind]; try reflexivity.
  rewrite df_filter_by_borough, bind_some, Hb. reflexivity.
Qed.

Lemma visualize_seven_unknown_borough_witness :
  (In (Str "NEWARK") [Str "QUEENS"; Str "NEWARK"]
   /\ dict_get Value_eqb BOROUGH_BOUNDS (Str "NEWARK") = None)
  /\ visualize_seven (snd (read_data Sample.three_rows))
       [Str "QUEENS"; Str "NEWARK"] (Some 2013) = None.
Proof.
  assert (H1 : In (Str "NEWARK") [Str "QUEENS"; Str "NEWARK"])
    by (right; left; reflexivity).
  assert (H2 : dict_get Value_eqb BOROUGH_BOUNDS (Str "NEWARK") = None)
    by reflexivity.
  split; [split; assumption|].
  exact (visualize_seven_unknown_borough (snd (read_data Sample.three_rows))
           [Str "QUEENS"; Str "NEWARK"] (Str "NEWARK") 2013 H1 H2).
Defined.

Lemma BOROUGH_BOUNDS_north (borough : Value) (c1 c2 : float * float) :
  dict_get Value_eqb BOROUGH_BOUNDS borough = Some (c1, c2) ->
  PrimFloat.ltb 0 (fst c1) = true.
Proof.
  unfold BOROUGH_BOUNDS. cbn [dict_get].
  repeat match goal with
         | |- context [Value_eqb ?a ?b] =>
             destruct (Value_eqb a b);
             [intros E; injection E as <- <-; reflexivity|]
         end.
  discriminate.
Qed.

(** What every heat map frame satisfies. *)
Lemma heat_map_of_rows (year_df_dict : list (Z * option DataFrame))
  (borough : Value) (year : Z) (plot : HeatMap) :
  heat_map_of year_df_dict borough year = Some plot ->
  snd (fst plot) = borough
  /\ exists year_df c1 c2,
       dict_get Z.eqb year_df_dict year = Some (Some year_df)
       /\ dict_get Value_eqb BOROUGH_BOUNDS borough = Some (c1, c2)
       /\ fst (fst plot) =
          df_between_coords (filter (borough_is borough) year_df) c1 c2
       /\ Forall (fun r => In r year_df
                           /\ str_eq_value (BOROUGH r) borough = true
                           /\ PrimFloat.is_nan (LATITUDE r) = false
                           /\ PrimFloat.is_nan (LONGITUDE r) = false
                           /\ PrimFloat.eqb (LATITUDE r) 0 = false)
                 (fst (fst plot)).
Proof.
  unfold heat_map_of.
  destruct (dict_get Z.eqb year_df_dict year) as [[year_df|]|] eqn:Hy;
    cbn [bind]; try discriminate.
  rewrite df_filter_by_borough, bind_some.
  destruct (dict_get Value_eqb BOROUGH_BOUNDS borough) as [[c1 c2]|] eqn:Hb;
    cbn [bind]; [|discriminate].
  intros E. injection E as <-. cbn [fst snd]. split; [reflexivity|].
  exists year_df, c1, c2. repeat split; try reflexivity.
  pose proof (df_between_coords_rows (filter (fun r => str_eq_value (BOROUGH r) borough) year_df) c1 c2) as Hrows.
  pose proof (BOROUGH_BOUNDS_north borough c1 c2 Hb) as Hnorth.
  apply Forall_forall. intros r Hr.
  rewrite Forall_forall in Hrows. destruct (Hrows r Hr) as (Hin & Hlat & Hlon & Hz).
  apply filter_In in Hin as [Hin Hbor].
  repeat split; try assumption. apply Hz. exact Hnorth.
Qed.

(** X21. Every heat map that [visualize_seven] asks for is drawn from a
    frame of [year_df_dict] and holds only records labelled with the
    borough of the map whose coordinates are present and strictly inside
    that borough's bounds: no record with a missing or zero latitude
    reaches a heat map. *)
Theorem visualize_seven_frames (year_df_dict : list (Z * option DataFrame))
  (boroughs : list Value) (selected_year : option Z) (plots : list HeatMap) :
  visualize_seven year_df_dict boroughs selected_year = Some plots ->
  Forall
    (fun plot =>
       let '(frame, borough, year) := plot in
       In borough boroughs
       /\ exists year_df c1 c2,
            dict_get Z.eqb year_df_dict year = Some (Some year_df)
            /\ dict_get Value_eqb BOROUGH_BOUNDS borough = Some (c1, c2)
            /\ frame =
               df_between_coords (filter (borough_is borough) year_df) c1 c2
            /\ Forall (fun r => In r year_df
                                /\ str_eq_value (BOROUGH r) borough = true
                                /\ PrimFloat.is_nan (LATITUDE r) = false
                                /\ PrimFloat.is_nan (LONGITUDE r) = false
                                /\ PrimFloat.eqb (LATITUDE r) 0 = false)
                      frame)
    plots.
Proof.
  unfold visualize_seven.
  destruct (match selected_year with
            | Some year => if (2012 <? year) && (year <? 2021) then Some tt else None
            | None => Some tt
            end); [|discriminate].
  rewrite bind_some.
  set (P := fun (seen : list Value) (ps : list HeatMap) =>
              Forall (fun plot : HeatMap =>
                let '(frame, borough, year) := plot in
                In borough seen
                /\ exists year_df c1 c2,
                     dict_get Z.eqb year_df_dict year = Some (Some year_df)
                     /\ dict_get Value_eqb BOROUGH_BOUNDS borough = Some (c1, c2)
                     /\ frame =
                        df_between_coords (filter (borough_is borough) year_df)
                          c1 c2
                     /\ Forall (fun r => In r year_df
                                /\ str_eq_value (BOROUGH r) borough = true
                                /\ PrimFloat.is_nan (LATITUDE r) = false
                                /\ PrimFloat.is_nan (LONGITUDE r) = false
                                /\ PrimFloat.eqb (LATITUDE r) 0 = false)
                               frame) ps).
  assert (Hone : forall seen ps borough year plot,
            P seen ps -> In borough seen ->
            heat_map_of year_df_dict borough year = Some plot ->
            P seen (ps ++ [plot])).
  { intros seen ps borough year plot Hps Hb Hplot. unfold P in *.
    apply Forall_app. split; [exact Hps|]. constructor; [|constructor].
    pose proof (heat_map_of_year _ _ _ _ Hplot) as Hyear.
    destruct (heat_map_of_rows _ _ _ _ Hplot) as (Hbor & year_df & c1 & c2 & H).
    destruct plot as [[frame b] y]. cbn [fst snd] in *. subst b y.
    split; [exact Hb|]. exists year_df, c1, c2. exact H. }
  assert (Hmono : forall seen seen' ps, incl seen seen' -> P seen ps -> P seen' ps).
  { intros seen seen' ps Hincl Hps. unfold P in *.
    eapply Forall_impl; [|exact Hps]. intros [[frame b] y] (Hb & H).
    split; [apply Hincl; exact Hb|exact H]. }
  assert (Hloop : forall todo seen ps result,
            P seen ps -> incl (seen ++ todo) boroughs ->
            for_each todo
              (fun plots borough =>
                 match selected_year with
                 | Some year =>
                     plot <- heat_map_of year_df_dict borough year ;;
                     Some (plots ++ [plot])
                 | None =>
                     for_each (map fst year_df_dict)
                       (fun plots year =>
                          plot <- heat_map_of year_df_dict borough year ;;
                          Some (plots ++ [plot])) plots
                 end) ps = Some result ->
            P boroughs result).
  { induction todo as [|b todo IH]; intros seen ps result Hps Hincl; simpl.
    - intros E. injection E as <-. apply (Hmono seen); [|exact Hps].
      intros a Ha. apply Hincl, in_or_app. now left.
    - assert (Hb : In b (seen ++ [b])) by (apply in_or_app; right; now left).
      assert (Hps' : P (seen ++ [b]) ps).
      { apply (Hmono seen); [|exact Hps]. intros a Ha. apply in_or_app. now left. }
      assert (Hincl' : incl ((seen ++ [b]) ++ todo) boroughs)
        by (rewrite <- app_assoc; exact Hincl).
      destruct selected_year as [year|].
      + destruct (heat_map_of year_df_dict b year) as [plot|] eqn:E;
          simpl; [|discriminate].
        apply (IH (seen ++ [b])); [|exact Hincl'].
        exact (Hone _ _ _ _ _ Hps' Hb E).
      + destruct (for_each (map fst year_df_dict) _ ps) as [ps'|] eqn:E;
          simpl; [|discriminate].
        apply (IH (seen ++ [b])); [|exact Hincl'].
        revert E. apply (for_each_invariant (P (seen ++ [b]))); [|exact Hps'].
        intros s y s' Hs Hbody.
        destruct (heat_map_of year_df_dict b y) as [plot|] eqn:E;
          simpl in Hbody; [|discriminate].
        injection Hbody as <-. exact (Hone _ _ _ _ _ Hs Hb E). }
  intros Hrun. apply (Hloop boroughs [] [] plots); [constructor|apply incl_refl|].
  exact Hrun.
Qed.

(* ================================================================== *)
(** * Causation and involved parties                                   *)
(* ================================================================== *)

Lemma last_of_app {A : Type} (l : list A) (x : A) : last_of (l ++ [x]) = Some x.
Proof. unfold last_of. rewrite rev_app_distr. reflexivity. Qed.

Lemma append_to_not_nil {A : Type} (counts : Counts A) (k : Key) (x : A) :
  append_to counts k x <> [].
Proof.
  destruct counts as [|[k' l] rest]; simpl; [discriminate|].
  destruct (Key_eqb k' k); discriminate.
Qed.

Lemma factor_total_sum (df : list FactorRow) (year : Z) :
  0 + factor_count df ("Drug Related Factor", Drug_Related_Factor) year
    + factor_count df ("Personal Factor", Personal_Factor) year
    + factor_count df ("Environmental Cause Factor", Environmental_Cause_Factor) year
    + factor_count df ("Failure To Obey Traffic Factor",
                       Failure_To_Obey_Traffic_Factor) year
  = factor_total df year.
Proof. unfold factor_total, total, FACTOR_COLUMNS. cbn [map fold_right]. lia. Qed.

(** A year without any causation indicator stops the loop. *)
Lemma causation_step_zero (df : list FactorRow)
  (tables : Counts Z * Counts float) (year : Z) :
  factor_total df year = 0 -> causation_step df tables year = None.
Proof.
  intros Hz. destruct tables as [ct cp]. unfold causation_step.
  unfold FACTOR_COLUMNS. cbn [fold_left snd].
  change (Z.of_nat (List.length (filter (fun r => cell_is 1 (Drug_Related_Factor r)) (crashes_of_year df year))))
    with (factor_count df ("Drug Related Factor", Drug_Related_Factor) year).
  change (Z.of_nat (List.length (filter (fun r => cell_is 1 (Personal_Factor r)) (crashes_of_year df year))))
    with (factor_count df ("Personal Factor", Personal_Factor) year).
  change (Z.of_nat (List.length (filter (fun r => cell_is 1 (Environmental_Cause_Factor r)) (crashes_of_year df year))))
    with (factor_count df ("Environmental Cause Factor", Environmental_Cause_Factor) year).
  change (Z.of_nat (List.length (filter (fun r => cell_is 1 (Failure_To_Obey_Traffic_Factor r)) (crashes_of_year df year))))
    with (factor_count df ("Failure To Obey Traffic Factor", Failure_To_Obey_Traffic_Factor) year).
  rewrite factor_total_sum, Hz.
  match goal with
  | |- context [for_each ?c _ _] =>
      pose proof (fun H : c = [] => append_to_not_nil _ _ _ H) as Hne;
      destruct c as [|[k values] rest]
  end; [exfalso; apply Hne; reflexivity|].
  cbn [for_each]. destruct (last_of values); reflexivity.
Qed.

Ltac name_factor_counts df year :=
  change (Z.of_nat (List.length (filter (fun r => cell_is 1 (Drug_Related_Factor r)) (crashes_of_year df year))))
    with (factor_count df ("Drug Related Factor", Drug_Related_Factor) year);
  change (Z.of_nat (List.length (filter (fun r => cell_is 1 (Personal_Factor r)) (crashes_of_year df year))))
    with (factor_count df ("Personal Factor", Personal_Factor) year);
  change (Z.of_nat (List.length (filter (fun r => cell_is 1 (Environmental_Cause_Factor r)) (crashes_of_year df year))))
    with (factor_count df ("Environmental Cause Factor", Environmental_Cause_Factor) year);
  change (Z.of_nat (List.length (filter (fun r => cell_is 1 (Failure_To_Obey_Traffic_Factor r)) (crashes_of_year df year))))
    with (factor_count df ("Failure To Obey Traffic Factor", Failure_To_Obey_Traffic_Factor) year).

Lemma int_true_divide_nonzero (a b : Z) :
  b <> 0 -> int_true_divide a b = Some (PrimFloat.div (to_float a) (to_float b)).
Proof.
  intros H. unfold int_true_divide. destruct (Z.eqb_spec b 0); [contradiction|reflexivity].
Qed.

Ltac run_appends :=
  repeat (cbn [append_to];
          match goal with
          | |- context [Key_eqb ?a ?b] =>
              let v := eval vm_compute in (Key_eqb a b) in
              change (Key_eqb a b) with v
          end);
  cbn [append_to].

Lemma causation_step_next (df : list FactorRow) (prefix : list Z) (year : Z) :
  factor_total df year <> 0 ->
  causation_step df (causation_tables df prefix) year =
  Some (causation_tables df (prefix ++ [year])).
Proof.
  intros Hnz. unfold causation_step.
  destruct prefix as [|y0 prefix].
  - cbn [causation_tables app]. unfold FACTOR_COLUMNS.
    cbn [fold_left snd]. run_appends.
    name_factor_counts df year.
    rewrite factor_total_sum.
    cbn [for_each]. unfold last_of. cbn [rev app bind].
    rewrite !(int_true_divide_nonzero _ _ Hnz). cbn [bind]. run_appends.
    reflexivity.
  - cbn [causation_tables app]. remember (y0 :: prefix) as P eqn:HP.
    rewrite app_comm_cons, <- HP. clear HP y0 prefix.
    unfold factor_table, FACTOR_COLUMNS. cbn [map fst snd fold_left].
    run_appends. name_factor_counts df year.
    rewrite factor_total_sum.
    cbn [for_each]. rewrite !last_of_app. cbn [bind].
    rewrite !(int_true_divide_nonzero _ _ Hnz). cbn [bind]. run_appends.
    rewrite !map_app. reflexivity.
Qed.

Lemma causation_loop (df : list FactorRow) (years prefix : list Z) :
  for_each years (causation_step df) (causation_tables df prefix) =
  if existsb (fun year => factor_total df year =? 0) years then None
  else Some (causation_tables df (prefix ++ years)).
Proof.
  revert prefix. induction years as [|y years IH]; intros prefix.
  - simpl. now rewrite app_nil_r.
  - cbn [for_each existsb]. destruct (Z.eqb_spec (factor_total df y) 0) as [Hz|Hnz].
    + rewrite (causation_step_zero df _ y Hz). reflexivity.
    + rewrite (causation_step_next df prefix y Hnz), bind_some, IH.
      cbn [orb]. now rewrite <- app_assoc.
Qed.

(** X22. [visualize_three] divides each causation count of a year by the
    year's total with Python integers, so it raises (ZeroDivisionError)
    exactly when one of the years 2013 to 2020 has no record with a
    causation indicator set.  Otherwise its totals and percentages are
    keyed by the four causation columns in order and hold, year by year,
    the count of the column and the count divided by the year's total. *)
Theorem visualize_three_result (df : list FactorRow) :
  if existsb (fun year => factor_total df year =? 0) YEARS
  then visualize_three df = None
  else visualize_three df =
       Some (factor_table (factor_count df) YEARS,
             factor_table (factor_share df) YEARS,
             involved_parties df).
Proof.
  unfold visualize_three.
  change ([] : Counts Z, [] : Counts float) with (causation_tables df []).
  rewrite causation_loop. cbn [app].
  destruct (existsb (fun year => factor_total df year =? 0) YEARS);
    reflexivity.
Qed.

Lemma filter_either {A : Type} (p q : A -> bool) (l : list A) :
  (forall a, p a && q a = false) ->
  (List.length (filter p l) + List.length (filter q l))%nat =
  List.length (filter (fun a => p a || q a) l).
Proof.
  intros H. induction l as [|a l IH]; simpl; [reflexivity|].
  specialize (H a). destruct (p a), (q a); simpl in *; try discriminate; lia.
Qed.

(** X23. [visualize_eight] returns the pedestrian counts and the
    vehicle-only counts of the years 2013 to 2020, in that order of keys
    and years.  In every year the two counts add up to the number of that
    year's records whose pedestrian indicator is 0 or 1, never more than the
    number of that year's records. *)
Theorem visualize_eight_table (df : list FactorRow) :
  visualize_eight df =
  [ (KVal (Str "INVOLVED TYPE PEDESTRIAN"), map (party_count df 1) YEARS);
    (KVal (Str "VEHICLE ONLY"), map (party_count df 0) YEARS) ]
  /\ forall year,
       party_count df 1 year + party_count df 0 year =
       Z.of_nat (List.length
         (filter (fun r => cell_is 1 (INVOLVED_TYPE_PEDESTRIAN r)
                           || cell_is 0 (INVOLVED_TYPE_PEDESTRIAN r))
                 (crashes_of_year df year)))
       /\ party_count df 1 year + party_count df 0 year <=
          Z.of_nat (List.length (crashes_of_year df year)).
Proof.
  split; [reflexivity|]. intros year. unfold party_count.
  rewrite <- Nat2Z.inj_add, filter_either.
  - split; [reflexivity|]. apply Nat2Z.inj_le, filter_length_le.
  - intros r. destruct (INVOLVED_TYPE_PEDESTRIAN r) as [m|]; simpl; [|reflexivity].
    destruct (Z.eqb_spec m 1) as [->|]; reflexivity.
Qed.

(* ================================================================== *)
(** * The corrected record and general enumerations                    *)
(* ================================================================== *)

Lemma eqb_not_nan (x a : float) :
  PrimFloat.eqb x a = true -> PrimFloat.is_nan x = false.
Proof.
  unfold PrimFloat.is_nan. rewrite !FloatAxioms.eqb_spec. unfold SFeqb.
  intros H. rewrite SFcompare_refl; [reflexivity|].
  intros E. rewrite E in H. discriminate H.
Qed.

Lemma queensboro_nonzero (x : float) :
  PrimFloat.eqb x QUEENSBORO_WRONG_LONGITUDE = true -> PrimFloat.eqb x 0 = false.
Proof.
  intros H.
  assert (Hf : exists b m e,
             Prim2SF QUEENSBORO_WRONG_LONGITUDE = S754_finite b m e)
    by (vm_compute; eauto).
  destruct Hf as (b & m & e & Hf).
  pose proof (eqb_finite_same x _ b m e Hf H) as E.
  rewrite FloatAxioms.eqb_spec, E, <- FloatAxioms.eqb_spec. reflexivity.
Qed.

(** X24. A record with longitude -201.23706 whose latitude lies strictly
    inside the city's latitude range survives the whole cleaning pass,
    labelled or not, and is in the cleaned set with borough MANHATTAN and
    longitude -73.95337. *)
Theorem read_data_keeps_queensboro (df : DataFrame) (r : Row) :
  In r df ->
  PrimFloat.eqb (LONGITUDE r) (-201.23706)%float = true ->
  within_lat r = true ->
  In (set_borough_longitude r (Some "MANHATTAN") (-73.95337)%float)
     (fst (read_data df)).
Proof.
  intros Hin Hq Hlat. rewrite read_data_cleaned.
  assert (Hr : set_lat_long r (fillna0 (LATITUDE r)) (fillna0 (LONGITUDE r)) = r).
  { apply andb_true_iff in Hlat as [Hlat _].
    rewrite (fillna0_fixed _ (ltb_not_nan_r _ _ Hlat)).
    rewrite (fillna0_fixed _ (eqb_not_nan _ _ Hq)).
    apply set_lat_long_same. }
  assert (Hfix : fix_queensboro_row r =
                 set_borough_longitude r (Some "MANHATTAN") (-73.95337)%float).
  { unfold fix_queensboro_row.
    change QUEENSBORO_WRONG_LONGITUDE with (-201.23706)%float.
    rewrite Hq. reflexivity. }
  apply filter_In. split.
  - rewrite <- Hfix. apply in_map. apply filter_In. split.
    + rewrite <- Hr. unfold fill_missing_coordinates. exact (in_map _ _ _ Hin).
    + rewrite borough_or_longitude_mask_spec, (queensboro_nonzero _ Hq).
      apply orb_true_r.
  - apply orb_true_iff. left.
    change (within_lat (set_borough_longitude r (Some "MANHATTAN")
                          (-73.95337)%float)) with (within_lat r).
    rewrite Hlat. reflexivity.
Qed.

Lemma read_data_keeps_queensboro_witness :
  (In Sample.queensboro_raw [Sample.unknown_place; Sample.queensboro_raw]
   /\ PrimFloat.eqb (LONGITUDE Sample.queensboro_raw) (-201.23706)%float = true
   /\ within_lat Sample.queensboro_raw = true)
  /\ In (set_borough_longitude Sample.queensboro_raw (Some "MANHATTAN")
           (-73.95337)%float)
        (fst (read_data [Sample.unknown_place; Sample.queensboro_raw])).
Proof.
  assert (H1 : In Sample.queensboro_raw
                  [Sample.unknown_place; Sample.queensboro_raw])
    by (right; left; reflexivity).
  assert (H2 : PrimFloat.eqb (LONGITUDE Sample.queensboro_raw)
                 (-201.23706)%float = true) by reflexivity.
  assert (H3 : within_lat Sample.queensboro_raw = true) by reflexivity.
  split; [repeat split; assumption|].
  exact (read_data_keeps_queensboro _ _ H1 H2 H3).
Defined.

(** X25. Every cleaned record whose latitude is not 0 lies strictly inside
    the city box, and its coordinates are never missing. *)
Theorem read_data_located_rows (df : DataFrame) :
  Forall (fun r =>
            PrimFloat.is_nan (LATITUDE r) = false
            /\ PrimFloat.is_nan (LONGITUDE r) = false
            /\ (PrimFloat.eqb (LATITUDE r) 0 = true
                \/ within_lat r && within_long r = true))
         (fst (read_data df)).
Proof.
  apply Forall_forall. intros r Hr.
  destruct (read_data_rows_clean df r Hr) as (Hlat & Hlon & _ & _ & Hbox).
  split; [exact Hlat|]. split; [exact Hlon|].
  apply orb_true_iff in Hbox as [Hbox|Hz]; [now right|left].
  unfold no_lat_long in Hz. now apply andb_true_iff in Hz.
Qed.

(** X26. Any two calls of [df_filter_by] commute, whatever the columns and
    values: two recognised filters select the same records in either order,
    and with an unknown column both orders fail. *)
Theorem df_filter_by_any_order (df : DataFrame) (c1 c2 : string)
  (v1 v2 : Value) :
  (d <- df_filter_by df c1 v1 ;; df_filter_by d c2 v2) =
  (d <- df_filter_by df c2 v2 ;; df_filter_by d c1 v1)
  /\ (d <- df_filter_by df c1 v1 ;; df_filter_by d c2 v2) =
     match column_mask c1, column_mask c2 with
     | Some m1, Some m2 => Some (filter (fun r => m1 v1 r && m2 v2 r) df)
     | _, _ => None
     end.
Proof.
  rewrite (df_filter_by_mask df c1), (df_filter_by_mask df c2).
  destruct (column_mask c1) as [m1|] eqn:H1, (column_mask c2) as [m2|] eqn:H2;
    cbn [option_map bind]; rewrite ?df_filter_by_mask, ?H1, ?H2;
    cbn [option_map bind]; split; try reflexivity.
  - f_equal. apply filter_filter_comm.
  - f_equal. apply filter_filter_andb.
Qed.

(** X27. For a recognised column and categories with pairwise different
    keys, [query_accidents_by_value_and_year] returns one entry per
    category, in the order given and under the category's key, holding the
    eight counts of that category for 2013 to 2020; no count exceeds the
    number of records of its year. *)
Theorem query_accidents_by_value_and_year_distinct (df : DataFrame)
  (column : string) (column_dict : ColumnDict) (mask : Value -> Row -> bool) :
  column_mask column = Some mask ->
  distinct_keys (map snd (column_items column_dict)) = true ->
  exists table,
    query_accidents_by_value_and_year df column column_dict = Some table
    /\ map fst table = map snd (column_items column_dict)
    /\ map snd table =
       map (fun it => map (bucket_count df (mask (fst it))) YEARS)
           (column_items column_dict)
    /\ Forall (fun entry =>
                 Forall2 (fun count year =>
                            0 <= count <= shape0 (filter (in_year year) df))
                         (snd entry) YEARS)
              table.
Proof.
  intros Hm Hd.
  rewrite (query_accidents_by_value_and_year_table df column column_dict mask Hm Hd).
  eexists. split; [reflexivity|].
  unfold count_table, table_of.
  split; [now rewrite map_map|]. split; [now rewrite map_map|].
  apply Forall_map. apply Forall_forall. intros it _. cbn [snd].
  induction YEARS as [|y ys IH]; simpl; constructor; [|exact IH].
  unfold bucket_count, shape0. split; [lia|].
  apply Nat2Z.inj_le, filter_length_le.
Qed.

Lemma query_accidents_by_value_and_year_distinct_witness :
  (column_mask "borough" = Some borough_is
   /\ distinct_keys
        (map snd (column_items (AsIterable [Str "QUEENS"; Str "BRONX"]))) = true)
  /\ exists table,
       query_accidents_by_value_and_year Sample.three_rows "borough"
         (AsIterable [Str "QUEENS"; Str "BRONX"]) = Some table
       /\ map fst table =
          map snd (column_items (AsIterable [Str "QUEENS"; Str "BRONX"]))
       /\ map snd table =
          map (fun it => map (bucket_count Sample.three_rows
                                (borough_is (fst it))) YEARS)
              (column_items (AsIterable [Str "QUEENS"; Str "BRONX"]))
       /\ Forall (fun entry =>
                    Forall2 (fun count year =>
                               0 <= count <=
                               shape0 (filter (in_year year) Sample.three_rows))
                            (snd entry) YEARS)
                 table.
Proof.
  assert (H1 : column_mask "borough" = Some borough_is) by reflexivity.
  assert (H2 : distinct_keys
                 (map snd (column_items (AsIterable [Str "QUEENS"; Str "BRONX"])))
               = true) by reflexivity.
  split; [split; assumption|].
  exact (query_accidents_by_value_and_year_distinct Sample.three_rows "borough"
           (AsIterable [Str "QUEENS"; Str "BRONX"]) borough_is H1 H2).
Defined.

Lemma visualize_seven_frames_witness :
  visualize_seven (snd (read_data Sample.three_rows)) [Str "MANHATTAN"]
    (Some 2013) = Some [([Sample.manhattan_2013], Str "MANHATTAN", 2013)]
  /\ Forall
       (fun plot : HeatMap =>
          let '(frame, borough, year) := plot in
          In borough [Str "MANHATTAN"]
          /\ exists year_df c1 c2,
               dict_get Z.eqb (snd (read_data Sample.three_rows)) year =
               Some (Some year_df)
               /\ dict_get Value_eqb BOROUGH_BOUNDS borough = Some (c1, c2)
               /\ frame =
                  df_between_coords (filter (borough_is borough) year_df) c1 c2
               /\ Forall (fun r => In r year_df
                                   /\ str_eq_value (BOROUGH r) borough = true
                                   /\ PrimFloat.is_nan (LATITUDE r) = false
                                   /\ PrimFloat.is_nan (LONGITUDE r) = false
                                   /\ PrimFloat.eqb (LATITUDE r) 0 = false)
                         frame)
       [([Sample.manhattan_2013], Str "MANHATTAN", 2013)].
Proof.
  assert (H : visualize_seven (snd (read_data Sample.three_rows))
                [Str "MANHATTAN"] (Some 2013) =
              Some [([Sample.manhattan_2013], Str "MANHATTAN", 2013)])
    by (vm_compute; reflexivity).
  split; [exact H|].
  exact (visualize_seven_frames (snd (read_data Sample.three_rows))
           [Str "MANHATTAN"] (Some 2013) _ H).
Defined.
